(** * A shallow embedding of [api/calculate.py]

    The module evaluates arithmetic expressions: it parses the text with
    Python's [ast.parse], walks the tree against the tuple [ALLOWED_NODES],
    evaluates it with [eval] in a namespace that holds only the registry
    ([SAFE_FUNCTIONS], [SAFE_CONSTANTS]) and coerces the result with
    [float].

    What the file [calculate.py] defines is embedded definition by
    definition, under the names of the source.  What it calls from the
    Python runtime is modelled as follows.
    - [float] is IEEE binary64: Rocq's primitive floats.  Conversions
      between integers, rationals and floats go through their exact
      mantissa and exponent ([Prim2SF], [SF2Prim]).
    - [int] is [Z]; [bool] is a subclass of [int].
    - The transcendental functions of the C library ([sin], [pow], ...)
      are fields of a record [libm]; the wrappers of the [math] module
      around them are written out.  Three operations of the interpreter
      that are not written out (printf-style formatting, [round] to a
      number of digits, complex powers) are fields of the same record.
    - [ast.parse] is a parameter of the evaluator.  A concrete parser for a
      subset of Python's expression grammar, [py_parse], instantiates it in
      the examples.
    - Exception messages follow CPython 3.12.
    - The methods of the HTTP handler return the calls they make on the
      connection ([send_response], [send_header], [end_headers],
      [wfile.write]), in order.  [json.dumps] is written out; the UTF-8
      decoder, [json.loads] and [float.__repr__] are fields of a record
      [codecs], which a decoder for JSON texts instantiates in the
      examples. *)

From Stdlib Require Import ZArith List String Ascii Bool Lia Floats.
From stdpp Require Import gmap strings sorting pretty.
Import ListNotations.

Set Warnings "-register-all".
Local Open Scope string_scope.
Local Open Scope Z_scope.

(** ** Exceptions and results *)

(** The exception classes that can reach the caller.  [EvaluationError] is
    the class the module defines ([class EvaluationError(ValueError)]); the
    two error kinds of the specification, InvalidExpression and
    UnsupportedElement, are both this class, told apart by the message.
    [Unmodelled] is not a Python class: it marks what this development
    gives no semantics to, namely the evaluation of a node class outside
    [ALLOWED_NODES] (the validator rejects those before [eval] runs), of an
    arrangement no parser builds (a [Store] context in an expression), and
    the three services of [bare_platform]. *)
Inductive exn_class :=
| SyntaxError | TypeError | ValueError | ZeroDivisionError | OverflowError
| MemoryError | NameError | EvaluationError | Unmodelled.

Record exn := PyExc { exn_cls : exn_class; exn_msg : string }.

(** [isinstance(exc, cls)] for the handlers of [evaluate_expression]:
    [Exception] is written [None]. *)
Definition exn_isinstance (e : exn) (cls : option exn_class) : bool :=
  match cls, exn_cls e with
  | _, Unmodelled => false
  | None, _ => true
  | Some ValueError, (ValueError | EvaluationError) => true
  | Some ZeroDivisionError, ZeroDivisionError => true
  | Some OverflowError, OverflowError => true
  | Some TypeError, TypeError => true
  | Some NameError, NameError => true
  | Some MemoryError, MemoryError => true
  | Some SyntaxError, SyntaxError => true
  | Some EvaluationError, EvaluationError => true
  | Some _, _ => false
  end.

Inductive result (A : Type) :=
| Ok (a : A)
| Raise (e : exn).
Arguments Ok {A} a.
Arguments Raise {A} e.

Global Instance result_ret : MRet result := fun A a => Ok a.
Global Instance result_bind : MBind result := fun A B k m =>
  match m with
  | Ok a => k a
  | Raise e => Raise e
  end.

Definition raise {A} (cls : exn_class) (msg : string) : result A :=
  Raise (PyExc cls msg).

(** ** Floats *)

Module PyFloat.

(** The sign bit, read from the exact representation ([-0.0] has it set). *)
Definition signbit (x : float) : bool :=
  match Prim2SF x with
  | S754_zero s | S754_infinity s | S754_finite s _ _ => s
  | S754_nan => false
  end.

Definition copysign (x y : float) : float :=
  if signbit y then PrimFloat.opp (PrimFloat.abs x) else PrimFloat.abs x.

(** [float(n)] for an integer: round to nearest, ties to even; [None] when
    the result is out of range ([OverflowError] in Python). *)
Definition of_Z (n : Z) : option float :=
  match binary_normalize prec emax n 0 false with
  | S754_infinity _ => None
  | sf => Some (SF2Prim sf)
  end.

(** The binary64 nearest to [n / d] for [0 <= n], with sign [neg], as a
    specification float: the quotient is taken with 64 bits or more and
    the remainder gives the rounding direction. *)
Definition sf_of_ratio (neg : bool) (n : Z) (d : positive) : spec_float :=
  if n =? 0 then S754_zero neg
  else
    let k := Z.max 0 (Z.log2 (Zpos d) - Z.log2 n + 64) in
    let q := (n * 2 ^ k) / Zpos d in
    let r := (n * 2 ^ k) mod Zpos d in
    let loc := if r =? 0 then SpecFloat.loc_Exact
               else SpecFloat.loc_Inexact (2 * r ?= Zpos d) in
    binary_round_aux prec emax neg q (- k) loc.

Definition of_Q (num : Z) (den : positive) : float :=
  SF2Prim (sf_of_ratio (num <? 0) (Z.abs num) den).

(** The exact value of a finite float as [m * 2 ^ e]. *)
Definition to_exact (x : float) : option (Z * Z) :=
  match Prim2SF x with
  | S754_zero _ => Some (0, 0)
  | S754_finite s m e => Some (if s then Zneg m else Zpos m, e)
  | _ => None
  end.

(** Floor and truncation of [m * 2 ^ e]. *)
Definition floor_exact (m e : Z) : Z :=
  if 0 <=? e then m * 2 ^ e else m / 2 ^ (- e).

Definition trunc_exact (m e : Z) : Z :=
  if 0 <=? e then m * 2 ^ e else Z.quot m (2 ^ (- e)).

Definition ceil_exact (m e : Z) : Z := - floor_exact (- m) e.

(** [m * 2 ^ e] is an integer. *)
Definition integral_exact (m e : Z) : bool :=
  (0 <=? e) || (m mod 2 ^ (- e) =? 0).

(** Exact comparison of an integer with a finite float, as Python's
    [float.__eq__] does for an [int] operand. *)
Definition eq_Z (n : Z) (x : float) : bool :=
  match to_exact x with
  | Some (m, e) => integral_exact m e && (n =? floor_exact m e)
  | None => false
  end.

End PyFloat.

(** ** Values *)

(** The callables bound in [SAFE_FUNCTIONS]: functions of the [math]
    module, the builtins [abs] and [round], the function [_factorial] and
    the seven lambdas of the module. *)
Inductive callable :=
| math_sin | math_cos | math_tan | math_asin | math_acos | math_atan
| math_sinh | math_cosh | math_tanh | math_log | math_log10 | math_sqrt
| math_exp | math_floor | math_ceil | math_degrees | math_radians
| builtins_abs | builtins_round
| fn_factorial
| lambda_cbrt
| lambda_sin_deg | lambda_cos_deg | lambda_tan_deg
| lambda_asin_deg | lambda_acos_deg | lambda_atan_deg.

(** The Python objects an expression can denote.  [VDict] is the empty
    dictionary that [safe_globals] binds to [__builtins__]. *)
Inductive value :=
| VNone
| VEllipsis
| VBool (b : bool)
| VInt (n : Z)
| VFloat (x : float)
| VComplex (re im : float)
| VStr (s : string)
| VTuple (vs : list value)
| VList (vs : list value)
| VDict
| VFunc (f : callable).

Definition type_name (v : value) : string :=
  match v with
  | VNone => "NoneType"
  | VEllipsis => "ellipsis"
  | VBool _ => "bool"
  | VInt _ => "int"
  | VFloat _ => "float"
  | VComplex _ _ => "complex"
  | VStr _ => "str"
  | VTuple _ => "tuple"
  | VList _ => "list"
  | VDict => "dict"
  | VFunc (fn_factorial | lambda_cbrt | lambda_sin_deg | lambda_cos_deg
          | lambda_tan_deg | lambda_asin_deg | lambda_acos_deg
          | lambda_atan_deg) => "function"
  | VFunc _ => "builtin_function_or_method"
  end.

(** [bool(v)]: the truth value that [not expression] tests. *)
Definition truthy (v : value) : bool :=
  match v with
  | VNone => false
  | VEllipsis => true
  | VBool b => b
  | VInt n => negb (n =? 0)
  | VFloat x => negb (PrimFloat.eqb x 0)
  | VComplex re im => negb (PrimFloat.eqb re 0 && PrimFloat.eqb im 0)
  | VStr s => negb (String.eqb s "")
  | VTuple vs | VList vs => negb (Nat.eqb (List.length vs) 0)
  | VDict => false
  | VFunc _ => true
  end.

Definition isinstance_str (v : value) : bool :=
  match v with VStr _ => true | _ => false end.

Definition isinstance_complex (v : value) : bool :=
  match v with VComplex _ _ => true | _ => false end.

(** ** The platform *)

(** The C library under the [math] module, and three services of the
    interpreter that this development does not write out. *)
Record libm := {
  c_sin : float -> float;
  c_cos : float -> float;
  c_tan : float -> float;
  c_asin : float -> float;
  c_acos : float -> float;
  c_atan : float -> float;
  c_sinh : float -> float;
  c_cosh : float -> float;
  c_tanh : float -> float;
  c_log : float -> float;
  c_log10 : float -> float;
  c_exp : float -> float;
  c_pow : float -> float -> float;
  c_hypot : float -> float -> float;
  (** [z ** w] on complex numbers. *)
  py_complex_pow : float * float -> float * float -> result (float * float);
  (** [fmt % arg] on strings. *)
  py_format : string -> value -> result string;
  (** [round(x, ndigits)] on a float with [ndigits] given. *)
  py_round_ndigits : float -> Z -> result float
}.

(** ** Numbers *)

Definition is_integer_float (x : float) : bool :=
  match PyFloat.to_exact x with
  | Some (m, e) => PyFloat.integral_exact m e
  | None => false
  end.

(** [DOUBLE_IS_ODD_INTEGER(x)]: [fmod(fabs(x), 2.0) == 1.0]. *)
Definition is_odd_integer (x : float) : bool :=
  match PyFloat.to_exact x with
  | Some (m, e) => PyFloat.integral_exact m e && Z.odd (PyFloat.floor_exact m e)
  | None => false
  end.

(** C's [floor] and [ceil]. *)
Definition c_floor (x : float) : float :=
  match PyFloat.to_exact x with
  | Some (m, e) =>
      if PyFloat.integral_exact m e then x
      else match PyFloat.of_Z (PyFloat.floor_exact m e) with
           | Some y => y
           | None => x
           end
  | None => x
  end.

Definition c_ceil (x : float) : float :=
  match PyFloat.to_exact x with
  | Some (m, e) =>
      if PyFloat.integral_exact m e then x
      else match PyFloat.ceil_exact m e with
           | 0 => PrimFloat.neg_zero
           | n => match PyFloat.of_Z n with Some y => y | None => x end
           end
  | None => x
  end.

(** C's [fmod]: the result has the sign of [x] and is exact. *)
Definition c_fmod (x y : float) : float :=
  match Prim2SF x, Prim2SF y with
  | S754_nan, _ | _, S754_nan => PrimFloat.nan
  | S754_infinity _, _ => PrimFloat.nan
  | _, S754_zero _ => PrimFloat.nan
  | _, S754_infinity _ => x
  | S754_zero _, _ => x
  | S754_finite sx mx ex, S754_finite _ my ey =>
      let e := Z.min ex ey in
      let r := (Zpos mx * 2 ^ (ex - e)) mod (Zpos my * 2 ^ (ey - e)) in
      match r with
      | 0 => if sx then PrimFloat.neg_zero else PrimFloat.zero
      | _ => SF2Prim (binary_normalize prec emax (if sx then - r else r) e false)
      end
  end.

(** [PyLong_AsDouble] and [PyFloat_AsDouble]. *)
Definition long_as_double (n : Z) : result float :=
  match PyFloat.of_Z n with
  | Some x => Ok x
  | None => raise OverflowError "int too large to convert to float"
  end.

Definition float_as_double (v : value) : result float :=
  match v with
  | VFloat x => Ok x
  | VInt n => long_as_double n
  | VBool b => long_as_double (Z.b2z b)
  | _ => raise TypeError ("must be real number, not " ++ type_name v)
  end.

(** [PyLong_FromDouble]. *)
Definition long_from_double (x : float) : result Z :=
  match Prim2SF x with
  | S754_nan => raise ValueError "cannot convert float NaN to integer"
  | S754_infinity _ => raise OverflowError "cannot convert float infinity to integer"
  | S754_zero _ => Ok 0
  | S754_finite s m e => Ok (PyFloat.trunc_exact (if s then Zneg m else Zpos m) e)
  end.

(** ** Syntax trees *)

(** The node classes of Python's [ast] module that an expression can
    contain, one constructor per class, fields in the order of [_fields].
    As in Python every node is an [AST]: operators and contexts are nodes
    too, and [iter_child_nodes] yields them.  Fields that hold no node
    ([Constant.kind], [FormattedValue.conversion], type comments) are left
    out. *)
Module ast.

Inductive AST :=
| Expression (body : AST)
| BoolOp (op : AST) (values : list AST)
| NamedExpr (target value : AST)
| BinOp (left op right : AST)
| UnaryOp (op operand : AST)
| Lambda (args body : AST)
| IfExp (test body orelse : AST)
| Dict (keys : list (option AST)) (values : list AST)
| Set_ (elts : list AST)
| ListComp (elt : AST) (generators : list AST)
| SetComp (elt : AST) (generators : list AST)
| DictComp (key value : AST) (generators : list AST)
| GeneratorExp (elt : AST) (generators : list AST)
| Await (value : AST)
| Yield (value : option AST)
| YieldFrom (value : AST)
| Compare (left : AST) (ops comparators : list AST)
| Call (func : AST) (args keywords : list AST)
| FormattedValue (value : AST) (format_spec : option AST)
| JoinedStr (values : list AST)
| Constant (value : value)
| Attribute (value : AST) (attr : string) (ctx : AST)
| Subscript (value slice ctx : AST)
| Starred (value ctx : AST)
| Name (id : string) (ctx : AST)
| List (elts : list AST) (ctx : AST)
| Tuple (elts : list AST) (ctx : AST)
| Slice (lower upper step : option AST)
| Load | Store | Del
| And | Or
| Add | Sub | Mult | MatMult | Div | Mod | Pow
| LShift | RShift | BitOr | BitXor | BitAnd | FloorDiv
| Invert | Not | UAdd | USub
| Eq | NotEq | Lt | LtE | Gt | GtE | Is | IsNot | In | NotIn
| comprehension (target iter : AST) (ifs : list AST)
| arguments (posonlyargs args : list AST) (vararg : option AST)
    (kwonlyargs : list AST) (kw_defaults : list (option AST))
    (kwarg : option AST) (defaults : list AST)
| arg (name : string) (annotation : option AST)
| keyword (name : option string) (value : AST).

(** [type(node).__name__] *)
Definition __name__ (node : AST) : string :=
  match node with
  | Expression _ => "Expression" | BoolOp _ _ => "BoolOp"
  | NamedExpr _ _ => "NamedExpr" | BinOp _ _ _ => "BinOp"
  | UnaryOp _ _ => "UnaryOp" | Lambda _ _ => "Lambda"
  | IfExp _ _ _ => "IfExp" | Dict _ _ => "Dict" | Set_ _ => "Set"
  | ListComp _ _ => "ListComp" | SetComp _ _ => "SetComp"
  | DictComp _ _ _ => "DictComp" | GeneratorExp _ _ => "GeneratorExp"
  | Await _ => "Await" | Yield _ => "Yield" | YieldFrom _ => "YieldFrom"
  | Compare _ _ _ => "Compare" | Call _ _ _ => "Call"
  | FormattedValue _ _ => "FormattedValue" | JoinedStr _ => "JoinedStr"
  | Constant _ => "Constant" | Attribute _ _ _ => "Attribute"
  | Subscript _ _ _ => "Subscript" | Starred _ _ => "Starred"
  | Name _ _ => "Name" | List _ _ => "List" | Tuple _ _ => "Tuple"
  | Slice _ _ _ => "Slice"
  | Load => "Load" | Store => "Store" | Del => "Del"
  | And => "And" | Or => "Or"
  | Add => "Add" | Sub => "Sub" | Mult => "Mult" | MatMult => "MatMult"
  | Div => "Div" | Mod => "Mod" | Pow => "Pow"
  | LShift => "LShift" | RShift => "RShift" | BitOr => "BitOr"
  | BitXor => "BitXor" | BitAnd => "BitAnd" | FloorDiv => "FloorDiv"
  | Invert => "Invert" | Not => "Not" | UAdd => "UAdd" | USub => "USub"
  | Eq => "Eq" | NotEq => "NotEq" | Lt => "Lt" | LtE => "LtE"
  | Gt => "Gt" | GtE => "GtE" | Is => "Is" | IsNot => "IsNot"
  | In => "In" | NotIn => "NotIn"
  | comprehension _ _ _ => "comprehension"
  | arguments _ _ _ _ _ _ _ => "arguments"
  | arg _ _ => "arg" | keyword _ _ => "keyword"
  end.

Definition some_nodes (l : list (option AST)) : list AST :=
  flat_map (fun o => match o with Some n => [n] | None => [] end) l.

Definition opt_node (o : option AST) : list AST :=
  match o with Some n => [n] | None => [] end.

(** [ast.iter_child_nodes(node)]: the direct child nodes, field by field. *)
Definition iter_child_nodes (node : AST) : list AST :=
  match node with
  | Expression body => [body]
  | BoolOp op values => op :: values
  | NamedExpr target value => [target; value]
  | BinOp lhs op rhs => [lhs; op; rhs]
  | UnaryOp op operand => [op; operand]
  | Lambda args body => [args; body]
  | IfExp test body orelse => [test; body; orelse]
  | Dict keys values => some_nodes keys ++ values
  | Set_ elts => elts
  | ListComp elt generators | SetComp elt generators
  | GeneratorExp elt generators => elt :: generators
  | DictComp key value generators => key :: value :: generators
  | Await value | YieldFrom value => [value]
  | Yield value => opt_node value
  | Compare lhs ops comparators => lhs :: ops ++ comparators
  | Call func args keywords => func :: args ++ keywords
  | FormattedValue value format_spec => value :: opt_node format_spec
  | JoinedStr values => values
  | Constant _ => []
  | Attribute value _ ctx => [value; ctx]
  | Subscript value slice ctx => [value; slice; ctx]
  | Starred value ctx => [value; ctx]
  | Name _ ctx => [ctx]
  | List elts ctx | Tuple elts ctx => elts ++ [ctx]
  | Slice lower upper step => opt_node lower ++ opt_node upper ++ opt_node step
  | comprehension target iter ifs => target :: iter :: ifs
  | arguments posonlyargs args vararg kwonlyargs kw_defaults kwarg defaults =>
      posonlyargs ++ args ++ opt_node vararg ++ kwonlyargs
        ++ some_nodes kw_defaults ++ opt_node kwarg ++ defaults
  | arg _ annotation => opt_node annotation
  | keyword _ value => [value]
  | _ => []
  end.

End ast.

(** ** The validator *)

Definition ALLOWED_NODES : list string :=
  [ "Expression"; "BinOp"; "UnaryOp"; "Call"; "Name"; "Load"; "Constant";
    "Pow"; "Add"; "Sub"; "Mult"; "Div"; "Mod"; "FloorDiv"; "USub"; "UAdd";
    "Assign"; "Store"; "arguments"; "keyword"; "Tuple"; "List" ].

(** [isinstance(node, classes)]: the parser builds instances of the
    classes themselves, never of subclasses. *)
Definition isinstance (node : ast.AST) (classes : list string) : bool :=
  existsb (String.eqb (ast.__name__ node)) classes.

Definition unsupported {A} (node : ast.AST) : result A :=
  raise EvaluationError ("Unsupported expression element: " ++ ast.__name__ node).

(** The loop [for child in children: validate(child)], over a list of
    nodes, an optional node, and a list of optional nodes ([None] entries
    are no nodes and are skipped). *)
Definition validate_each (validate : ast.AST -> result unit)
  : list ast.AST -> result unit :=
  fix each (l : list ast.AST) : result unit :=
    match l with
    | [] => Ok tt
    | child :: l' => validate child;; each l'
    end.

Definition validate_opt (validate : ast.AST -> result unit) (o : option ast.AST)
  : result unit :=
  match o with
  | Some child => validate child
  | None => Ok tt
  end.

Definition validate_each_opt (validate : ast.AST -> result unit)
  : list (option ast.AST) -> result unit :=
  fix each (l : list (option ast.AST)) : result unit :=
    match l with
    | [] => Ok tt
    | Some child :: l' => validate child;; each l'
    | None :: l' => each l'
    end.

(** [_validate_node]: the loop over [ast.iter_child_nodes(node)] is
    written out per class so that the recursion is structural;
    [_validate_node_eq] states it in the form of the source. *)
Fixpoint _validate_node (node : ast.AST) : result unit :=
  let each := validate_each _validate_node in
  let opt := validate_opt _validate_node in
  let each_opt := validate_each_opt _validate_node in
  if negb (isinstance node ALLOWED_NODES) then unsupported node
  else
    match node with
    | ast.Expression body => _validate_node body
    | ast.BoolOp op values => _validate_node op;; each values
    | ast.NamedExpr target value => _validate_node target;; _validate_node value
    | ast.BinOp lhs op rhs =>
        _validate_node lhs;; _validate_node op;; _validate_node rhs
    | ast.UnaryOp op operand => _validate_node op;; _validate_node operand
    | ast.Lambda args body => _validate_node args;; _validate_node body
    | ast.IfExp test body orelse =>
        _validate_node test;; _validate_node body;; _validate_node orelse
    | ast.Dict keys values => each_opt keys;; each values
    | ast.Set_ elts => each elts
    | ast.ListComp elt generators | ast.SetComp elt generators
    | ast.GeneratorExp elt generators => _validate_node elt;; each generators
    | ast.DictComp key value generators =>
        _validate_node key;; _validate_node value;; each generators
    | ast.Await value | ast.YieldFrom value => _validate_node value
    | ast.Yield value => opt value
    | ast.Compare lhs ops comparators =>
        _validate_node lhs;; each ops;; each comparators
    | ast.Call func args keywords =>
        _validate_node func;; each args;; each keywords
    | ast.FormattedValue value format_spec =>
        _validate_node value;; opt format_spec
    | ast.JoinedStr values => each values
    | ast.Attribute value _ ctx => _validate_node value;; _validate_node ctx
    | ast.Subscript value slice ctx =>
        _validate_node value;; _validate_node slice;; _validate_node ctx
    | ast.Starred value ctx => _validate_node value;; _validate_node ctx
    | ast.Name _ ctx => _validate_node ctx
    | ast.List elts ctx | ast.Tuple elts ctx => each elts;; _validate_node ctx
    | ast.Slice lower upper step => opt lower;; opt upper;; opt step
    | ast.comprehension target iter ifs =>
        _validate_node target;; _validate_node iter;; each ifs
    | ast.arguments posonlyargs args vararg kwonlyargs kw_defaults kwarg defaults =>
        each posonlyargs;; each args;; opt vararg;; each kwonlyargs;;
        each_opt kw_defaults;; opt kwarg;; each defaults
    | ast.arg _ annotation => opt annotation
    | ast.keyword _ value => _validate_node value
    | _ => Ok tt
    end.

(** ** Text *)

(** Strings are sequences of code points below 256. *)
Definition code (c : ascii) : Z := Z.of_N (N_of_ascii c).

Definition is_digit (c : ascii) : bool := (48 <=? code c) && (code c <=? 57).

Definition is_alpha (c : ascii) : bool :=
  ((65 <=? code c) && (code c <=? 90)) || ((97 <=? code c) && (code c <=? 122))
  || (code c =? 95).

(** [str.isspace] on one character. *)
Definition is_space (c : ascii) : bool :=
  ((9 <=? code c) && (code c <=? 13)) || ((28 <=? code c) && (code c <=? 32))
  || (code c =? 133) || (code c =? 160).

Definition lower (c : ascii) : ascii :=
  if (65 <=? code c) && (code c <=? 90)
  then ascii_of_N (Z.to_N (code c + 32)) else c.

Fixpoint lstrip (cs : list ascii) : list ascii :=
  match cs with
  | c :: cs' => if is_space c then lstrip cs' else cs
  | [] => []
  end.

Definition strip (cs : list ascii) : list ascii :=
  rev (lstrip (rev (lstrip cs))).

(** digitpart ::= digit (["_"] digit)*: the value read so far, the number
    of digits read, and the rest of the text. *)
Fixpoint digitpart (acc : Z) (cnt : Z) (cs : list ascii) : Z * Z * list ascii :=
  match cs with
  | c :: cs' =>
      if is_digit c then digitpart (10 * acc + (code c - 48)) (cnt + 1) cs'
      else if (code c =? 95) && (0 <? cnt) then
        match cs' with
        | d :: _ => if is_digit d then digitpart acc cnt cs' else (acc, cnt, cs)
        | [] => (acc, cnt, cs)
        end
      else (acc, cnt, cs)
  | [] => (acc, cnt, cs)
  end.

Definition split_sign (cs : list ascii) : bool * list ascii :=
  match cs with
  | "-"%char :: cs' => (true, cs')
  | "+"%char :: cs' => (false, cs')
  | _ => (false, cs)
  end.

(** exponent ::= ("e" | "E") ["+" | "-"] digitpart; when none is there the
    exponent is 0 and nothing is consumed. *)
Definition exponent (cs : list ascii) : Z * list ascii :=
  match cs with
  | c :: cs' =>
      if Ascii.eqb (lower c) "e" then
        let '(neg, ds) := split_sign cs' in
        let '(e, cnt, rest) := digitpart 0 0 ds in
        if 0 <? cnt then (if neg then - e else e, rest) else (0, cs)
      else (0, cs)
  | [] => (0, cs)
  end.

(** A decimal number [digits [. digits] [exponent]] or [. digits
    [exponent]] at the head of the text: mantissa, power of ten, whether a
    point or an exponent was read, and the rest. *)
Definition decimal (cs : list ascii) : option (Z * Z * bool * list ascii) :=
  let '(ip, icnt, rest) := digitpart 0 0 cs in
  match rest with
  | "."%char :: rest' =>
      let '(m, fcnt, rest'') := digitpart ip 0 rest' in
      if (icnt =? 0) && (fcnt =? 0) then None
      else let '(e, rest3) := exponent rest'' in Some (m, e - fcnt, true, rest3)
  | _ =>
      if icnt =? 0 then None
      else let '(e, rest') := exponent rest in
           Some (ip, e, negb (Nat.eqb (List.length rest') (List.length rest)), rest')
  end.

(** The float nearest to [m * 10 ^ e], infinite when out of range. *)
Definition float_of_decimal (neg : bool) (m e : Z) : float :=
  SF2Prim (if 0 <=? e then PyFloat.sf_of_ratio neg (m * 10 ^ e) 1
           else PyFloat.sf_of_ratio neg m (Z.to_pos (10 ^ (- e)))).

Definition hex_digit (n : Z) : ascii :=
  ascii_of_N (Z.to_N (if n <? 10 then 48 + n else 87 + n)).

(** [repr] of a string. *)
Definition py_repr (s : string) : string :=
  let cs := list_ascii_of_string s in
  let quote : ascii :=
    if existsb (Ascii.eqb "'") cs && negb (existsb (Ascii.eqb "034") cs)
    then "034"%char else "'"%char in
  let escape (c : ascii) : list ascii :=
    if Ascii.eqb c quote || Ascii.eqb c "\" then ["\"%char; c]
    else if code c =? 9 then ["\"%char; "t"%char]
    else if code c =? 10 then ["\"%char; "n"%char]
    else if code c =? 13 then ["\"%char; "r"%char]
    else if (code c <? 32) || ((127 <=? code c) && (code c <=? 160)) || (code c =? 173)
    then ["\"%char; "x"%char; hex_digit (code c / 16); hex_digit (code c mod 16)]
    else [c] in
  string_of_list_ascii (quote :: flat_map escape cs ++ [quote]).

(** [int(s)] for a string, base 10. *)
Definition int_of_string (s : string) : result Z :=
  let '(neg, ds) := split_sign (strip (list_ascii_of_string s)) in
  match digitpart 0 0 ds with
  | (n, cnt, []) =>
      if 0 <? cnt then Ok (if neg then - n else n)
      else raise ValueError ("invalid literal for int() with base 10: " ++ py_repr s)
  | _ => raise ValueError ("invalid literal for int() with base 10: " ++ py_repr s)
  end.

(** [float(s)] for a string. *)
Definition float_of_string (s : string) : result float :=
  let '(neg, ds) := split_sign (strip (list_ascii_of_string s)) in
  let word := string_of_list_ascii (map lower ds) in
  if String.eqb word "inf" || String.eqb word "infinity"
  then Ok (if neg then PrimFloat.neg_infinity else PrimFloat.infinity)
  else if String.eqb word "nan" then Ok PrimFloat.nan
  else
    match decimal ds with
    | Some (m, e, _, []) => Ok (float_of_decimal neg m e)
    | _ => raise ValueError ("could not convert string to float: " ++ py_repr s)
    end.

(** ** Arithmetic of the interpreter *)

Definition PY_SSIZE_T_MAX : Z := 2 ^ 63 - 1.
Definition LONG_MAX : Z := 2 ^ 63 - 1.

Fixpoint string_repeat (n : nat) (s : string) : string :=
  match n with
  | O => ""
  | S n' => s ++ string_repeat n' s
  end.

Fixpoint list_repeat {A} (n : nat) (l : list A) : list A :=
  match n with
  | O => []
  | S n' => l ++ list_repeat n' l
  end.

(** [Zpos]-free factorial on [Z], by recursion on the argument. *)
Fixpoint zfact (n : nat) : Z :=
  match n with
  | O => 1
  | S k => Z.of_nat n * zfact k
  end.

Section Runtime.

Variable M : libm.

(** *** [int] *)

(** [long_true_divide]: the quotient rounded once to the nearest float. *)
Definition long_true_divide (a b : Z) : result value :=
  if b =? 0 then raise ZeroDivisionError "division by zero"
  else
    match PyFloat.sf_of_ratio (xorb (a <? 0) (b <? 0)) (Z.abs a) (Z.to_pos (Z.abs b)) with
    | S754_infinity _ =>
        raise OverflowError "integer division result too large for a float"
    | sf => Ok (VFloat (SF2Prim sf))
    end.

(** *** [float] *)

Definition float_div (a b : float) : result value :=
  if PrimFloat.eqb b 0 then raise ZeroDivisionError "float division by zero"
  else Ok (VFloat (a / b)%float).

Definition float_rem (vx wx : float) : result value :=
  if PrimFloat.eqb wx 0 then raise ZeroDivisionError "float modulo"
  else
    let md := c_fmod vx wx in
    Ok (VFloat
          (if negb (PrimFloat.eqb md 0)
           then if xorb (PrimFloat.ltb wx 0) (PrimFloat.ltb md 0)
                then (md + wx)%float else md
           else PyFloat.copysign 0 wx)).

Definition float_floor_div (vx wx : float) : result value :=
  if PrimFloat.eqb wx 0 then raise ZeroDivisionError "float floor division by zero"
  else
    let md := c_fmod vx wx in
    let dv := ((vx - md) / wx)%float in
    let dv := if negb (PrimFloat.eqb md 0)
                 && xorb (PrimFloat.ltb wx 0) (PrimFloat.ltb md 0)
              then (dv - 1)%float else dv in
    Ok (VFloat
          (if negb (PrimFloat.eqb dv 0)
           then let fl := c_floor dv in
                if PrimFloat.ltb 0.5 (dv - fl)%float then (fl + 1)%float else fl
           else PyFloat.copysign 0 (vx / wx)%float)).

(** The C library's [pow].  For a finite negative base and a finite
    exponent that is not an integer, C99 (F.9.4.4) fixes the result: NaN.
    Elsewhere the value is the platform's. *)
Definition libm_pow (x y : float) : float :=
  if PrimFloat.is_finite x && PrimFloat.ltb x 0
     && PrimFloat.is_finite y && negb (is_integer_float y)
  then PrimFloat.nan else c_pow M x y.

(** [float_pow]; a negative base with a fractional exponent goes to the
    complex power. *)
Definition float_pow (iv iw : float) : result value :=
  if PrimFloat.eqb iw 0 then Ok (VFloat 1)
  else if PrimFloat.is_nan iv then Ok (VFloat iv)
  else if PrimFloat.is_nan iw then
    Ok (VFloat (if PrimFloat.eqb iv 1 then 1%float else iw))
  else if PrimFloat.is_infinity iw then
    let av := PrimFloat.abs iv in
    if PrimFloat.eqb av 1 then Ok (VFloat 1)
    else if Bool.eqb (PrimFloat.ltb 0 iw) (PrimFloat.ltb 1 av)
         then Ok (VFloat (PrimFloat.abs iw))
         else Ok (VFloat 0)
  else if PrimFloat.is_infinity iv then
    let odd := is_odd_integer iw in
    if PrimFloat.ltb 0 iw
    then Ok (VFloat (if odd then iv else PrimFloat.abs iv))
    else Ok (VFloat (if odd then PyFloat.copysign 0 iv else 0%float))
  else if PrimFloat.eqb iv 0 then
    if PrimFloat.ltb iw 0
    then raise ZeroDivisionError "0.0 cannot be raised to a negative power"
    else Ok (VFloat (if is_odd_integer iw then iv else 0%float))
  else if PrimFloat.ltb iv 0 && negb (is_integer_float iw) then
    '(re, im) ← py_complex_pow M (iv, 0%float) (iw, 0%float);
    Ok (VComplex re im)
  else
    let negate_result := PrimFloat.ltb iv 0 && is_odd_integer iw in
    let iv := PrimFloat.abs iv in
    if PrimFloat.eqb iv 1
    then Ok (VFloat (if negate_result then (-1)%float else 1%float))
    else
      let ix := libm_pow iv iw in
      let ix := if negate_result then (- ix)%float else ix in
      if PrimFloat.is_infinity ix
      then raise OverflowError "(34, 'Numerical result out of range')"
      else Ok (VFloat ix).

(** [long_pow] without a modulus. *)
Definition long_pow (a b : Z) : result value :=
  if b <? 0 then
    x ← long_as_double a; y ← long_as_double b; float_pow x y
  else Ok (VInt (a ^ b)).

(** *** [complex] *)

Definition complex_quot (a b : float * float) : result value :=
  let '(ar, ai) := a in
  let '(br, bi) := b in
  let abs_breal := if PrimFloat.ltb br 0 then (- br)%float else br in
  let abs_bimag := if PrimFloat.ltb bi 0 then (- bi)%float else bi in
  if PrimFloat.leb abs_bimag abs_breal then
    if PrimFloat.eqb abs_breal 0
    then raise ZeroDivisionError "complex division by zero"
    else
      let ratio := (bi / br)%float in
      let denom := (br + bi * ratio)%float in
      Ok (VComplex ((ar + ai * ratio) / denom)%float ((ai - ar * ratio) / denom)%float)
  else if PrimFloat.leb abs_breal abs_bimag then
    let ratio := (br / bi)%float in
    let denom := (br * ratio + bi)%float in
    Ok (VComplex ((ar * ratio + ai) / denom)%float ((ai * ratio - ar) / denom)%float)
  else Ok (VComplex PrimFloat.nan PrimFloat.nan).

(** *** The numeric tower *)

Inductive number :=
| NInt (n : Z)
| NFloat (x : float)
| NComplex (re im : float).

Definition as_number (v : value) : option number :=
  match v with
  | VBool b => Some (NInt (Z.b2z b))
  | VInt n => Some (NInt n)
  | VFloat x => Some (NFloat x)
  | VComplex re im => Some (NComplex re im)
  | _ => None
  end.

Definition to_double (a : number) : result float :=
  match a with
  | NInt n => long_as_double n
  | NFloat x => Ok x
  | NComplex _ _ => raise TypeError "can't convert complex to float"
  end.

Definition to_complex (a : number) : result (float * float) :=
  match a with
  | NComplex re im => Ok (re, im)
  | _ => x ← to_double a; Ok (x, 0%float)
  end.

Definition op_symbol (op : ast.AST) : string :=
  match op with
  | ast.Add => "+" | ast.Sub => "-" | ast.Mult => "*" | ast.Div => "/"
  | ast.Mod => "%" | ast.FloorDiv => "//" | ast.Pow => "** or pow()"
  | _ => ast.__name__ op
  end.

Definition unsupported_operands {A} (op : ast.AST) (a b : value) : result A :=
  raise TypeError ("unsupported operand type(s) for " ++ op_symbol op ++ ": '"
                   ++ type_name a ++ "' and '" ++ type_name b ++ "'").

Definition unmodelled {A} (node : ast.AST) : result A :=
  raise Unmodelled (ast.__name__ node).

Definition long_op (op : ast.AST) (a b : Z) : result value :=
  match op with
  | ast.Add => Ok (VInt (a + b))
  | ast.Sub => Ok (VInt (a - b))
  | ast.Mult => Ok (VInt (a * b))
  | ast.Div => long_true_divide a b
  | ast.FloorDiv =>
      if b =? 0 then raise ZeroDivisionError "integer division or modulo by zero"
      else Ok (VInt (a / b))
  | ast.Mod =>
      if b =? 0 then raise ZeroDivisionError "integer modulo by zero"
      else Ok (VInt (a mod b))
  | ast.Pow => long_pow a b
  | _ => unmodelled op
  end.

Definition float_op (op : ast.AST) (a b : float) : result value :=
  match op with
  | ast.Add => Ok (VFloat (a + b)%float)
  | ast.Sub => Ok (VFloat (a - b)%float)
  | ast.Mult => Ok (VFloat (a * b)%float)
  | ast.Div => float_div a b
  | ast.FloorDiv => float_floor_div a b
  | ast.Mod => float_rem a b
  | ast.Pow => float_pow a b
  | _ => unmodelled op
  end.

Definition complex_op (op : ast.AST) (a b : float * float) : result value :=
  match op with
  | ast.Add => Ok (VComplex (fst a + fst b)%float (snd a + snd b)%float)
  | ast.Sub => Ok (VComplex (fst a - fst b)%float (snd a - snd b)%float)
  | ast.Mult =>
      Ok (VComplex (fst a * fst b - snd a * snd b)%float
                   (fst a * snd b + snd a * fst b)%float)
  | ast.Div => complex_quot a b
  | ast.FloorDiv | ast.Mod =>
      unsupported_operands op (VComplex (fst a) (snd a)) (VComplex (fst b) (snd b))
  | ast.Pow => '(re, im) ← py_complex_pow M a b; Ok (VComplex re im)
  | _ => unmodelled op
  end.

Definition number_op (op : ast.AST) (a b : number) : result value :=
  match a, b with
  | NInt x, NInt y => long_op op x y
  | NComplex _ _, _ | _, NComplex _ _ =>
      x ← to_complex a; y ← to_complex b; complex_op op x y
  | _, _ => x ← to_double a; y ← to_double b; float_op op x y
  end.

(** *** Sequences *)

Definition repeat_count (n : Z) (len : nat) (too_long : exn) : result nat :=
  if (PY_SSIZE_T_MAX <? n) || (n <? - PY_SSIZE_T_MAX - 1)
  then raise OverflowError "cannot fit 'int' into an index-sized integer"
  else if n <=? 0 then Ok O
  else if PY_SSIZE_T_MAX <? Z.of_nat len * n then Raise too_long
  else Ok (Z.to_nat n).

Definition sequence_repeat (v : value) (n : Z) : result value :=
  match v with
  | VStr s =>
      k ← repeat_count n (String.length s)
            (PyExc OverflowError "repeated string is too long");
      Ok (VStr (string_repeat k s))
  | VTuple vs =>
      k ← repeat_count n (List.length vs) (PyExc MemoryError "");
      Ok (VTuple (list_repeat k vs))
  | VList vs =>
      k ← repeat_count n (List.length vs) (PyExc MemoryError "");
      Ok (VList (list_repeat k vs))
  | _ => raise TypeError "can't multiply sequence by non-int"
  end.

Definition is_sequence (v : value) : bool :=
  match v with VStr _ | VTuple _ | VList _ => true | _ => false end.

Definition as_index (v : value) : option Z :=
  match v with
  | VInt n => Some n
  | VBool b => Some (Z.b2z b)
  | _ => None
  end.

(** *** Binary and unary operators *)

Definition binary_op (op : ast.AST) (a b : value) : result value :=
  match as_number a, as_number b with
  | Some x, Some y => number_op op x y
  | _, _ =>
      match op, a, b with
      | ast.Add, VStr s, VStr t => Ok (VStr (s ++ t))
      | ast.Add, VTuple s, VTuple t => Ok (VTuple (s ++ t))
      | ast.Add, VList s, VList t => Ok (VList (s ++ t))
      | ast.Mod, VStr s, _ => t ← py_format M s b; Ok (VStr t)
      | ast.Mult, _, _ =>
          match is_sequence a, as_index b, as_index a, is_sequence b with
          | true, Some n, _, _ => sequence_repeat a n
          | _, _, Some n, true => sequence_repeat b n
          | _, _, _, _ => unsupported_operands op a b
          end
      | (ast.Add | ast.Sub | ast.Div | ast.FloorDiv | ast.Mod | ast.Pow), _, _ =>
          unsupported_operands op a b
      | _, _, _ => unmodelled op
      end
  end.

Definition unary_op (op : ast.AST) (a : value) : result value :=
  match op with
  | ast.USub =>
      match as_number a with
      | Some (NInt n) => Ok (VInt (- n))
      | Some (NFloat x) => Ok (VFloat (- x)%float)
      | Some (NComplex re im) => Ok (VComplex (- re)%float (- im)%float)
      | None => raise TypeError ("bad operand type for unary -: '" ++ type_name a ++ "'")
      end
  | ast.UAdd =>
      match as_number a with
      | Some (NInt n) => Ok (VInt n)
      | Some (NFloat x) => Ok (VFloat x)
      | Some (NComplex re im) => Ok (VComplex re im)
      | None => raise TypeError ("bad operand type for unary +: '" ++ type_name a ++ "'")
      end
  | _ => unmodelled op
  end.

(** *** Calling conventions *)

Definition no_keywords (fname : string) (kwargs : list (string * value)) : result unit :=
  match kwargs with
  | [] => Ok tt
  | _ => raise TypeError (fname ++ "() takes no keyword arguments")
  end.

Definition one_arg (fname : string) (args : list value) : result value :=
  match args with
  | [a] => Ok a
  | _ => raise TypeError (fname ++ "() takes exactly one argument")
  end.

(** Binding of positional and keyword arguments to the parameters of a
    function: one slot per parameter, in order. *)
Fixpoint bind_positional (fname : string) (params : list string) (args : list value)
  : result (list (string * option value)) :=
  match params, args with
  | [], [] => Ok []
  | [], _ :: _ => raise TypeError (fname ++ "() takes too many positional arguments")
  | p :: ps, [] => rest ← bind_positional fname ps []; Ok ((p, None) :: rest)
  | p :: ps, a :: args' => rest ← bind_positional fname ps args'; Ok ((p, Some a) :: rest)
  end.

Fixpoint bind_keyword (fname : string) (slots : list (string * option value))
    (kw : string * value) : result (list (string * option value)) :=
  match slots with
  | [] => raise TypeError (fname ++ "() got an unexpected keyword argument '" ++ fst kw ++ "'")
  | (p, o) :: slots' =>
      if String.eqb p (fst kw) then
        match o with
        | Some _ => raise TypeError (fname ++ "() got multiple values for argument '" ++ p ++ "'")
        | None => Ok ((p, Some (snd kw)) :: slots')
        end
      else rest ← bind_keyword fname slots' kw; Ok ((p, o) :: rest)
  end.

Fixpoint bind_keywords (fname : string) (slots : list (string * option value))
    (kwargs : list (string * value)) : result (list (string * option value)) :=
  match kwargs with
  | [] => Ok slots
  | kw :: kwargs' => slots' ← bind_keyword fname slots kw; bind_keywords fname slots' kwargs'
  end.

Definition bind_arguments (fname : string) (params : list string)
    (args : list value) (kwargs : list (string * value)) : result (list (option value)) :=
  slots ← bind_positional fname params args;
  slots ← bind_keywords fname slots kwargs;
  Ok (map snd slots).

(** The parameter list [(x)] of [_factorial] and of the lambdas. *)
Definition bind_x (fname : string) (args : list value) (kwargs : list (string * value))
  : result value :=
  slots ← bind_arguments fname ["x"] args kwargs;
  match slots with
  | [Some x] => Ok x
  | _ => raise TypeError (fname ++ "() missing 1 required positional argument: 'x'")
  end.

(** *** The [math] module *)

Definition math_pi : float := 0x1.921fb54442d18p+1%float.
Definition math_e : float := 0x1.5bf0a8b145769p+1%float.
Definition math_tau : float := 0x1.921fb54442d18p+2%float.

(** [math_1]: call a function of the C library and turn a NaN or an
    infinity that the argument does not explain into an exception. *)
Definition math_1 (func : float -> float) (can_overflow : bool) (arg : value)
  : result value :=
  x ← float_as_double arg;
  let r := func x in
  if PrimFloat.is_nan r && negb (PrimFloat.is_nan x)
  then raise ValueError "math domain error"
  else if PrimFloat.is_infinity r && PrimFloat.is_finite x
  then if can_overflow then raise OverflowError "math range error"
       else raise ValueError "math domain error"
  else Ok (VFloat r).

(** [m_log] and [m_log10]: the logarithms with the special values fixed. *)
Definition m_log_with (clog : float -> float) (x : float) : float :=
  if PrimFloat.is_finite x then
    if PrimFloat.ltb 0 x then clog x
    else if PrimFloat.eqb x 0 then PrimFloat.neg_infinity
    else PrimFloat.nan
  else if PrimFloat.is_nan x then x
  else if PrimFloat.ltb 0 x then x
  else PrimFloat.nan.

(** [_PyLong_Frexp] for a positive integer: [x] in [[0.5, 1)] and [e]
    with [n] about [x * 2 ^ e]. *)
Definition long_frexp (n : Z) : float * Z :=
  let e := Z.log2 n + 1 in
  let x := SF2Prim (PyFloat.sf_of_ratio false n (Z.to_pos (2 ^ e))) in
  if PrimFloat.eqb x 1 then (0.5%float, e + 1) else (x, e).

Definition loghelper (func : float -> float) (arg : value) : result value :=
  match as_index arg with
  | Some n =>
      if n <=? 0 then raise ValueError "math domain error"
      else
        match PyFloat.of_Z n with
        | Some x => Ok (VFloat (func x))
        | None =>
            let '(x, e) := long_frexp n in
            match PyFloat.of_Z e with
            | Some fe => Ok (VFloat (func x + func 2 * fe)%float)
            | None => raise OverflowError "int too large to convert to float"
            end
        end
  | None => math_1 func false arg
  end.

Definition math_log_impl (args : list value) : result value :=
  match args with
  | [x] => loghelper (m_log_with (c_log M)) x
  | [x; base] =>
      num ← loghelper (m_log_with (c_log M)) x;
      den ← loghelper (m_log_with (c_log M)) base;
      match num, den with
      | VFloat a, VFloat b => float_div a b
      | _, _ => raise TypeError "unsupported operand type(s) for /"
      end
  | _ => raise TypeError "log expected at least 1 argument and at most 2"
  end.

(** [math.pow]: the IEEE special cases are decided before the C library
    is called. *)
Definition math_pow_impl (x y : float) : result value :=
  if negb (PrimFloat.is_finite x) || negb (PrimFloat.is_finite y) then
    if PrimFloat.is_nan x then Ok (VFloat (if PrimFloat.eqb y 0 then 1%float else x))
    else if PrimFloat.is_nan y then Ok (VFloat (if PrimFloat.eqb x 1 then 1%float else y))
    else if PrimFloat.is_infinity x then
      let odd_y := PrimFloat.is_finite y && is_odd_integer y in
      if PrimFloat.ltb 0 y then Ok (VFloat (if odd_y then x else PrimFloat.abs x))
      else if PrimFloat.eqb y 0 then Ok (VFloat 1)
      else Ok (VFloat (if odd_y then PyFloat.copysign 0 x else 0%float))
    else
      if PrimFloat.eqb (PrimFloat.abs x) 1 then Ok (VFloat 1)
      else if PrimFloat.ltb 0 y && PrimFloat.ltb 1 (PrimFloat.abs x) then Ok (VFloat y)
      else if PrimFloat.ltb y 0 && PrimFloat.ltb (PrimFloat.abs x) 1 then Ok (VFloat (- y)%float)
      else Ok (VFloat 0)
  else
    let r := libm_pow x y in
    if PrimFloat.is_nan r then raise ValueError "math domain error"
    else if PrimFloat.is_infinity r then
      if PrimFloat.eqb x 0 then raise ValueError "math domain error"
      else raise OverflowError "math range error"
    else Ok (VFloat r).

Definition math_pow (x y : value) : result value :=
  a ← float_as_double x; b ← float_as_double y; math_pow_impl a b.

(** [math.floor] and [math.ceil]: [int.__floor__] for integers, the C
    function and [PyLong_FromDouble] otherwise. *)
Definition math_floor_impl (cfun : float -> float) (number : value) : result value :=
  match number with
  | VInt n => Ok (VInt n)
  | VBool b => Ok (VInt (Z.b2z b))
  | _ => x ← float_as_double number; n ← long_from_double (cfun x); Ok (VInt n)
  end.

Definition radToDeg : float := (180 / math_pi)%float.
Definition degToRad : float := (math_pi / 180)%float.

Definition math_degrees_impl (arg : value) : result value :=
  x ← float_as_double arg; Ok (VFloat (x * radToDeg)%float).

Definition math_radians_impl (arg : value) : result value :=
  x ← float_as_double arg; Ok (VFloat (x * degToRad)%float).

(** [math.factorial] on an integer. *)
Definition math_factorial (n : Z) : result value :=
  if LONG_MAX <? n
  then raise OverflowError "factorial() argument should not exceed 9223372036854775807"
  else if n <? 0 then raise ValueError "factorial() not defined for negative values"
  else Ok (VInt (zfact (Z.to_nat n))).

(** *** Builtins *)

(** [int(x)] *)
Definition py_int (x : value) : result Z :=
  match x with
  | VInt n => Ok n
  | VBool b => Ok (Z.b2z b)
  | VFloat f => long_from_double f
  | VStr s => int_of_string s
  | _ => raise TypeError ("int() argument must be a string, a bytes-like object or a real number, not '"
                          ++ type_name x ++ "'")
  end.

(** [n != x] for an integer [n]. *)
Definition int_ne (n : Z) (x : value) : bool :=
  match x with
  | VInt m => negb (n =? m)
  | VBool b => negb (n =? Z.b2z b)
  | VFloat f => negb (PyFloat.eq_Z n f)
  | VComplex re im => negb (PyFloat.eq_Z n re && PrimFloat.eqb im 0)
  | _ => true
  end.

(** [x < 0] *)
Definition lt_zero (x : value) : result bool :=
  match x with
  | VInt n => Ok (n <? 0)
  | VBool _ => Ok false
  | VFloat f => Ok (PrimFloat.ltb f 0)
  | _ => raise TypeError ("'<' not supported between instances of '"
                          ++ type_name x ++ "' and 'int'")
  end.

(** [abs(x)] *)
Definition builtins_abs_impl (x : value) : result value :=
  match x with
  | VInt n => Ok (VInt (Z.abs n))
  | VBool b => Ok (VInt (Z.b2z b))
  | VFloat f => Ok (VFloat (PrimFloat.abs f))
  | VComplex re im =>
      let r := c_hypot M re im in
      if PrimFloat.is_infinity r && PrimFloat.is_finite re && PrimFloat.is_finite im
      then raise OverflowError "absolute value too large"
      else Ok (VFloat r)
  | _ => raise TypeError ("bad operand type for abs(): '" ++ type_name x ++ "'")
  end.

(** Rounding of [m * 2 ^ e] and of [n / 10 ^ k] to the nearest integer,
    ties to even. *)
Definition round_half_even (n d : Z) : Z :=
  let q := n / d in
  let r := n mod d in
  match 2 * r ?= d with
  | Lt => q
  | Gt => q + 1
  | Eq => if Z.even q then q else q + 1
  end.

Definition float_round (x : float) : result Z :=
  match Prim2SF x with
  | S754_nan => raise ValueError "cannot convert float NaN to integer"
  | S754_infinity _ => raise OverflowError "cannot convert float infinity to integer"
  | S754_zero _ => Ok 0
  | S754_finite s m e =>
      let z := if s then Zneg m else Zpos m in
      Ok (if 0 <=? e then z * 2 ^ e else round_half_even z (2 ^ (- e)))
  end.

Definition long_round (n k : Z) : Z :=
  if 0 <=? k then n else round_half_even n (10 ^ (- k)) * 10 ^ (- k).

(** [round(number, ndigits=None)] *)
Definition builtins_round_impl (number : value) (ndigits : option value) : result value :=
  let digits : result (option Z) :=
    match ndigits with
    | None | Some VNone => Ok None
    | Some nd =>
        match as_index nd with
        | Some k => Ok (Some k)
        | None => raise TypeError ("'" ++ type_name nd
                                   ++ "' object cannot be interpreted as an integer")
        end
    end in
  match number, as_index number with
  | _, Some n =>
      k ← digits;
      Ok (VInt (match k with Some k => long_round n k | None => n end))
  | VFloat x, _ =>
      k ← digits;
      match k with
      | None => n ← float_round x; Ok (VInt n)
      | Some k => y ← py_round_ndigits M x k; Ok (VFloat y)
      end
  | _, _ => raise TypeError ("type " ++ type_name number ++ " doesn't define __round__ method")
  end.

(** *** The functions of the module *)

(** [_factorial] *)
Definition _factorial (x : value) : result value :=
  n ← py_int x;
  c ← (if int_ne n x then Ok true else lt_zero x);
  if c : bool
  then raise ValueError "Factorial is only defined for non-negative integers."
  else n ← py_int x; math_factorial n.

(** What each callable does with the arguments of a call. *)
Definition call_function (f : callable) (args : list value)
    (kwargs : list (string * value)) : result value :=
  let math1 (fname : string) (func : float -> float) (can_overflow : bool) :=
    no_keywords fname kwargs;; x ← one_arg fname args; math_1 func can_overflow x in
  match f with
  | math_sin => math1 "math.sin" (c_sin M) false
  | math_cos => math1 "math.cos" (c_cos M) false
  | math_tan => math1 "math.tan" (c_tan M) false
  | math_asin => math1 "math.asin" (c_asin M) false
  | math_acos => math1 "math.acos" (c_acos M) false
  | math_atan => math1 "math.atan" (c_atan M) false
  | math_sinh => math1 "math.sinh" (c_sinh M) true
  | math_cosh => math1 "math.cosh" (c_cosh M) true
  | math_tanh => math1 "math.tanh" (c_tanh M) false
  | math_exp => math1 "math.exp" (c_exp M) true
  | math_sqrt => math1 "math.sqrt" PrimFloat.sqrt false
  | math_log => no_keywords "math.log" kwargs;; math_log_impl args
  | math_log10 =>
      no_keywords "math.log10" kwargs;; x ← one_arg "math.log10" args;
      loghelper (m_log_with (c_log10 M)) x
  | math_floor =>
      no_keywords "math.floor" kwargs;; x ← one_arg "math.floor" args;
      math_floor_impl c_floor x
  | math_ceil =>
      no_keywords "math.ceil" kwargs;; x ← one_arg "math.ceil" args;
      math_floor_impl c_ceil x
  | math_degrees =>
      no_keywords "math.degrees" kwargs;; x ← one_arg "math.degrees" args;
      math_degrees_impl x
  | math_radians =>
      no_keywords "math.radians" kwargs;; x ← one_arg "math.radians" args;
      math_radians_impl x
  | builtins_abs =>
      no_keywords "abs" kwargs;; x ← one_arg "abs" args; builtins_abs_impl x
  | builtins_round =>
      slots ← bind_arguments "round" ["number"; "ndigits"] args kwargs;
      match slots with
      | [Some number; ndigits] => builtins_round_impl number ndigits
      | _ => raise TypeError "round() missing required argument 'number' (pos 1)"
      end
  | fn_factorial => x ← bind_x "_factorial" args kwargs; _factorial x
  | lambda_cbrt =>
      (* lambda x: math.pow(x, 1 / 3) *)
      x ← bind_x "<lambda>" args kwargs;
      third ← binary_op ast.Div (VInt 1) (VInt 3);
      math_pow x third
  | lambda_sin_deg =>
      (* lambda x: math.sin(math.radians(x)) *)
      x ← bind_x "<lambda>" args kwargs;
      r ← math_radians_impl x; math_1 (c_sin M) false r
  | lambda_cos_deg =>
      x ← bind_x "<lambda>" args kwargs;
      r ← math_radians_impl x; math_1 (c_cos M) false r
  | lambda_tan_deg =>
      x ← bind_x "<lambda>" args kwargs;
      r ← math_radians_impl x; math_1 (c_tan M) false r
  | lambda_asin_deg =>
      (* lambda x: math.degrees(math.asin(x)) *)
      x ← bind_x "<lambda>" args kwargs;
      r ← math_1 (c_asin M) false x; math_degrees_impl r
  | lambda_acos_deg =>
      x ← bind_x "<lambda>" args kwargs;
      r ← math_1 (c_acos M) false x; math_degrees_impl r
  | lambda_atan_deg =>
      x ← bind_x "<lambda>" args kwargs;
      r ← math_1 (c_atan M) false x; math_degrees_impl r
  end.

(** ** The registry *)

(** The two dictionaries of the module are objects that every call reads:
    they are the state of the module.  [module_init] is their content once
    the module is imported: the dictionary display of [SAFE_FUNCTIONS]
    followed by the eight item assignments. *)
Record module_state := {
  SAFE_FUNCTIONS : gmap string value;
  SAFE_CONSTANTS : gmap string value
}.

Definition module_init : module_state := {|
  SAFE_FUNCTIONS :=
    <["atan_deg" := VFunc lambda_atan_deg]>
    (<["acos_deg" := VFunc lambda_acos_deg]>
    (<["asin_deg" := VFunc lambda_asin_deg]>
    (<["tan_deg" := VFunc lambda_tan_deg]>
    (<["cos_deg" := VFunc lambda_cos_deg]>
    (<["sin_deg" := VFunc lambda_sin_deg]>
    (<["factorial" := VFunc fn_factorial]>
    (<["fact" := VFunc fn_factorial]>
    (list_to_map
       [ ("sin", VFunc math_sin); ("cos", VFunc math_cos);
         ("tan", VFunc math_tan); ("asin", VFunc math_asin);
         ("acos", VFunc math_acos); ("atan", VFunc math_atan);
         ("sinh", VFunc math_sinh); ("cosh", VFunc math_cosh);
         ("tanh", VFunc math_tanh); ("log", VFunc math_log);
         ("ln", VFunc math_log); ("log10", VFunc math_log10);
         ("sqrt", VFunc math_sqrt); ("cbrt", VFunc lambda_cbrt);
         ("exp", VFunc math_exp); ("abs", VFunc builtins_abs);
         ("floor", VFunc math_floor); ("ceil", VFunc math_ceil);
         ("round", VFunc builtins_round); ("deg", VFunc math_degrees);
         ("rad", VFunc math_radians) ]))))))));
  SAFE_CONSTANTS :=
    list_to_map [ ("pi", VFloat math_pi); ("e", VFloat math_e); ("tau", VFloat math_tau) ]
|}.

(** ** Evaluation *)

(** [LOAD_NAME]: the local namespace, then the globals, then the builtins,
    which [safe_globals] makes the empty dictionary. *)
Definition load_name (globals locals : gmap string value) (id : string) : result value :=
  match locals !! id with
  | Some v => Ok v
  | None =>
      match globals !! id with
      | Some v => Ok v
      | None => raise NameError ("name '" ++ id ++ "' is not defined")
      end
  end.

Definition call (f : value) (args : list value) (kwargs : list (string * value))
  : result value :=
  match f with
  | VFunc c => call_function c args kwargs
  | _ => raise TypeError ("'" ++ type_name f ++ "' object is not callable")
  end.

(** [compile(parsed, "<expr>", "eval")]: the code object is the tree. *)
Definition compile (parsed : ast.AST) : result ast.AST := Ok parsed.

(** The operands of a display or a call, evaluated left to right. *)
Definition eval_each (ev : ast.AST -> result value) : list ast.AST -> result (list value) :=
  fix each (l : list ast.AST) : result (list value) :=
    match l with
    | [] => Ok []
    | n :: l' => v ← ev n; vs ← each l'; Ok (v :: vs)
    end.

(** The keyword arguments of a call, left to right; [**mapping] merges a
    mapping, and the only mapping an expression can name is the empty
    [__builtins__]. *)
Definition eval_keywords (ev : ast.AST -> result value)
  : list ast.AST -> result (list (string * value)) :=
  fix each (l : list ast.AST) : result (list (string * value)) :=
    match l with
    | [] => Ok []
    | ast.keyword (Some name) n :: l' =>
        v ← ev n; kws ← each l'; Ok ((name, v) :: kws)
    | ast.keyword None n :: l' =>
        v ← ev n;
        match v with
        | VDict => each l'
        | _ => raise TypeError ("argument after ** must be a mapping, not " ++ type_name v)
        end
    | n :: _ => unmodelled n
    end.

(** [eval(compiled, globals, locals)] on the node classes of
    [ALLOWED_NODES]; the other classes are not given a semantics. *)
Fixpoint eval (globals locals : gmap string value) (node : ast.AST) : result value :=
  match node with
  | ast.Expression body => eval globals locals body
  | ast.Constant v => Ok v
  | ast.Name id ast.Load => load_name globals locals id
  | ast.BinOp lhs op rhs =>
      a ← eval globals locals lhs; b ← eval globals locals rhs; binary_op op a b
  | ast.UnaryOp op operand => a ← eval globals locals operand; unary_op op a
  | ast.Call func args keywords =>
      f ← eval globals locals func;
      vs ← eval_each (eval globals locals) args;
      kws ← eval_keywords (eval globals locals) keywords;
      call f vs kws
  | ast.Tuple elts ast.Load => vs ← eval_each (eval globals locals) elts; Ok (VTuple vs)
  | ast.List elts ast.Load => vs ← eval_each (eval globals locals) elts; Ok (VList vs)
  | _ => unmodelled node
  end.

(** [float(result)] *)
Definition py_float (v : value) : result float :=
  match v with
  | VFloat x => Ok x
  | VInt n => long_as_double n
  | VBool b => long_as_double (Z.b2z b)
  | VStr s => float_of_string s
  | _ => raise TypeError ("float() argument must be a string or a real number, not '"
                          ++ type_name v ++ "'")
  end.

(** ** [evaluate_expression] *)

(** [ast.parse(expression, mode="eval")] *)
Variable ast_parse : string -> result ast.AST.

(** The handlers of the [try] statement around [eval], in order. *)
Definition translate_fault (exc : exn) : exn :=
  if exn_isinstance exc (Some ZeroDivisionError)
  then PyExc EvaluationError "Division by zero."
  else if exn_isinstance exc (Some ValueError)
  then PyExc EvaluationError (exn_msg exc)
  else if exn_isinstance exc (Some OverflowError)
  then PyExc EvaluationError "Result overflow."
  else if exn_isinstance exc None
  then PyExc EvaluationError "Invalid expression."
  else exc.

(** [safe_globals = {"__builtins__": {}}] and
    [safe_locals = {**SAFE_FUNCTIONS, **SAFE_CONSTANTS}]: in the merge the
    constants come last, so they win over functions of the same name. *)
Definition safe_globals : gmap string value := {[ "__builtins__" := VDict ]}.

Definition safe_locals (functions constants : gmap string value) : gmap string value :=
  constants ∪ functions.

(** The body of [evaluate_expression] once the registry has been read. *)
Definition evaluate_with (functions constants : gmap string value) (expression : value)
  : result float :=
  if negb (truthy expression) || negb (isinstance_str expression)
  then raise EvaluationError "Expression is empty."
  else
    match expression with
    | VStr source =>
        parsed ← ast_parse source;
        _validate_node parsed;;
        compiled ← compile parsed;
        match eval safe_globals (safe_locals functions constants) compiled with
        | Raise exc => Raise (translate_fault exc)
        | Ok result =>
            if isinstance_complex result
            then raise EvaluationError "Complex results are not supported."
            else py_float result
        end
    | _ => raise EvaluationError "Expression is empty."
    end.

(** [evaluate_expression]: the outcome of the call and the state of the
    module after it. *)
Definition evaluate_expression (expression : value) (st : module_state)
  : result float * module_state :=
  (evaluate_with (SAFE_FUNCTIONS st) (SAFE_CONSTANTS st) expression, st).

End Runtime.

(** ** A parser for the examples *)

(** [py_parse] reads a subset of Python's expression grammar and builds
    the tree [ast.parse(source, mode="eval")] builds for it: literals
    (decimal and radix integers, floats, imaginary numbers, plain strings),
    names, the operators with Python's precedence and associativity,
    comparisons, [not]/[and]/[or], conditional expressions, lambdas with
    plain parameters, calls, attributes, subscripts and slices, tuple, list,
    set and dictionary displays, comprehensions and assignment expressions.
    On text outside the subset (string prefixes, triple quotes, [await],
    starred targets, non-ASCII names) it answers [SyntaxError].  The
    theorems about [evaluate_expression] hold for every parser; this one
    serves the examples. *)
Module Parser.

Inductive punct :=
| LPar | RPar | LSqb | RSqb | LBrace | RBrace | Comma | Colon | Dot | Semi
| Plus | Minus | Star | Slash | Percent | At | Amper | VBar | Circumflex | Tilde
| DoubleStar | DoubleSlash | LeftShift | RightShift
| Less | Greater | LessEqual | GreaterEqual | EqEqual | NotEqual
| Equal | ColonEqual | Ellipsis | Other.

Inductive keyword :=
| kw_False | kw_None | kw_True | kw_and | kw_or | kw_not | kw_if | kw_else
| kw_for | kw_in | kw_is | kw_lambda | kw_reserved.

Inductive token :=
| NUMBER (v : value)
| STRING (s : string)
| NAME (s : string)
| KEYWORD (k : keyword)
| OP (p : punct)
| NEWLINE.

Definition syntax_error {A} : result A := raise SyntaxError "invalid syntax".

Definition punct_eqb (p q : punct) : bool :=
  match p, q with
  | RPar, RPar | RSqb, RSqb | RBrace, RBrace | Other, Other => true
  | _, _ => false
  end.

Fixpoint NoDup_dec_bool (l : list string) : bool :=
  match l with
  | [] => true
  | x :: l' => negb (existsb (String.eqb x) l') && NoDup_dec_bool l'
  end.

Definition keywords : list string :=
  [ "False"; "None"; "True"; "and"; "as"; "assert"; "async"; "await"; "break";
    "class"; "continue"; "def"; "del"; "elif"; "else"; "except"; "finally";
    "for"; "from"; "global"; "if"; "import"; "in"; "is"; "lambda"; "nonlocal";
    "not"; "or"; "pass"; "raise"; "return"; "try"; "while"; "with"; "yield" ].

Definition is_keyword (s : string) : bool := existsb (String.eqb s) keywords.

Definition name_token (s : string) : token :=
  if negb (is_keyword s) then NAME s
  else if String.eqb s "False" then KEYWORD kw_False
  else if String.eqb s "None" then KEYWORD kw_None
  else if String.eqb s "True" then KEYWORD kw_True
  else if String.eqb s "and" then KEYWORD kw_and
  else if String.eqb s "or" then KEYWORD kw_or
  else if String.eqb s "not" then KEYWORD kw_not
  else if String.eqb s "if" then KEYWORD kw_if
  else if String.eqb s "else" then KEYWORD kw_else
  else if String.eqb s "for" then KEYWORD kw_for
  else if String.eqb s "in" then KEYWORD kw_in
  else if String.eqb s "is" then KEYWORD kw_is
  else if String.eqb s "lambda" then KEYWORD kw_lambda
  else KEYWORD kw_reserved.

(** *** Tokens *)

Fixpoint name_chars (cs : list ascii) : list ascii * list ascii :=
  match cs with
  | c :: cs' =>
      if is_alpha c || is_digit c
      then let '(n, rest) := name_chars cs' in (c :: n, rest)
      else ([], cs)
  | [] => ([], [])
  end.

(** The body of a string literal up to the closing quote. *)
Fixpoint string_body (quote : ascii) (cs : list ascii) : option (list ascii * list ascii) :=
  match cs with
  | [] => None
  | c :: cs' =>
      if Ascii.eqb c quote then Some ([], cs')
      else if code c =? 10 then None
      else if Ascii.eqb c "\" then
        match cs' with
        | d :: cs'' =>
            let keep (out : list ascii) :=
              match string_body quote cs'' with
              | Some (body, rest) => Some ((out ++ body)%list, rest)
              | None => None
              end in
            if Ascii.eqb d "n" then keep [ascii_of_N 10]
            else if Ascii.eqb d "t" then keep [ascii_of_N 9]
            else if Ascii.eqb d "r" then keep [ascii_of_N 13]
            else if Ascii.eqb d "\" || Ascii.eqb d "'" || Ascii.eqb d "034" then keep [d]
            else if is_alpha d || is_digit d || (code d =? 10) then None
            else keep [c; d]
        | [] => None
        end
      else
        match string_body quote cs' with
        | Some (body, rest) => Some (c :: body, rest)
        | None => None
        end
  end.

Definition radix_digit (base : Z) (c : ascii) : option Z :=
  let d := if is_digit c then code c - 48
           else if (97 <=? code (lower c)) && (code (lower c) <=? 102)
                then code (lower c) - 87 else 99 in
  if d <? base then Some d else None.

Fixpoint radix_digits (base acc cnt : Z) (cs : list ascii) : Z * Z * list ascii :=
  match cs with
  | c :: cs' =>
      match radix_digit base c with
      | Some d => radix_digits base (base * acc + d) (cnt + 1) cs'
      | None =>
          if code c =? 95 then
            match cs' with
            | d :: _ =>
                match radix_digit base d with
                | Some _ => radix_digits base acc cnt cs'
                | None => (acc, cnt, cs)
                end
            | [] => (acc, cnt, cs)
            end
          else (acc, cnt, cs)
      end
  | [] => (acc, cnt, cs)
  end.

(** A number at the head of the text. *)
Definition number (cs : list ascii) : result (value * list ascii) :=
  let radix (base : Z) (rest : list ascii) :=
    let '(n, cnt, rest') := radix_digits base 0 0 rest in
    if 0 <? cnt then Ok (VInt n, rest') else syntax_error in
  match cs with
  | "0"%char :: c :: rest =>
      if Ascii.eqb (lower c) "x" then radix 16 rest
      else if Ascii.eqb (lower c) "o" then radix 8 rest
      else if Ascii.eqb (lower c) "b" then radix 2 rest
      else
        match decimal cs with
        | Some (m, e, is_float, rest') =>
            match rest' with
            | j :: rest'' =>
                if Ascii.eqb (lower j) "j"
                then Ok (VComplex 0 (float_of_decimal false m e), rest'')
                else if is_float then Ok (VFloat (float_of_decimal false m e), rest')
                else if (m =? 0) then Ok (VInt 0, rest') else syntax_error
            | [] =>
                if is_float then Ok (VFloat (float_of_decimal false m e), rest')
                else if (m =? 0) then Ok (VInt 0, rest') else syntax_error
            end
        | None => syntax_error
        end
  | _ =>
      match decimal cs with
      | Some (m, e, is_float, rest') =>
          match rest' with
          | j :: rest'' =>
              if Ascii.eqb (lower j) "j"
              then Ok (VComplex 0 (float_of_decimal false m e), rest'')
              else Ok (if is_float then VFloat (float_of_decimal false m e) else VInt m, rest')
          | [] => Ok (if is_float then VFloat (float_of_decimal false m e) else VInt m, rest')
          end
      | None => syntax_error
      end
  end.

(** An operator or delimiter at the head of the text, longest first. *)
Definition operator (cs : list ascii) : option (punct * list ascii) :=
  match cs with
  | "."%char :: "."%char :: "."%char :: r => Some (Ellipsis, r)
  | "*"%char :: "*"%char :: "="%char :: r => Some (Other, r)
  | "/"%char :: "/"%char :: "="%char :: r => Some (Other, r)
  | "<"%char :: "<"%char :: "="%char :: r => Some (Other, r)
  | ">"%char :: ">"%char :: "="%char :: r => Some (Other, r)
  | "*"%char :: "*"%char :: r => Some (DoubleStar, r)
  | "/"%char :: "/"%char :: r => Some (DoubleSlash, r)
  | "<"%char :: "<"%char :: r => Some (LeftShift, r)
  | ">"%char :: ">"%char :: r => Some (RightShift, r)
  | "<"%char :: "="%char :: r => Some (LessEqual, r)
  | ">"%char :: "="%char :: r => Some (GreaterEqual, r)
  | "="%char :: "="%char :: r => Some (EqEqual, r)
  | "!"%char :: "="%char :: r => Some (NotEqual, r)
  | ":"%char :: "="%char :: r => Some (ColonEqual, r)
  | "-"%char :: ">"%char :: r => Some (Other, r)
  | "+"%char :: "="%char :: r | "-"%char :: "="%char :: r
  | "*"%char :: "="%char :: r | "/"%char :: "="%char :: r
  | "%"%char :: "="%char :: r | "@"%char :: "="%char :: r
  | "&"%char :: "="%char :: r | "|"%char :: "="%char :: r
  | "^"%char :: "="%char :: r => Some (Other, r)
  | "("%char :: r => Some (LPar, r)
  | ")"%char :: r => Some (RPar, r)
  | "["%char :: r => Some (LSqb, r)
  | "]"%char :: r => Some (RSqb, r)
  | "{"%char :: r => Some (LBrace, r)
  | "}"%char :: r => Some (RBrace, r)
  | ","%char :: r => Some (Comma, r)
  | ":"%char :: r => Some (Colon, r)
  | "."%char :: r => Some (Dot, r)
  | ";"%char :: r => Some (Semi, r)
  | "+"%char :: r => Some (Plus, r)
  | "-"%char :: r => Some (Minus, r)
  | "*"%char :: r => Some (Star, r)
  | "/"%char :: r => Some (Slash, r)
  | "%"%char :: r => Some (Percent, r)
  | "@"%char :: r => Some (At, r)
  | "&"%char :: r => Some (Amper, r)
  | "|"%char :: r => Some (VBar, r)
  | "^"%char :: r => Some (Circumflex, r)
  | "~"%char :: r => Some (Tilde, r)
  | "<"%char :: r => Some (Less, r)
  | ">"%char :: r => Some (Greater, r)
  | "="%char :: r => Some (Equal, r)
  | _ => None
  end.

Fixpoint skip_comment (cs : list ascii) : list ascii :=
  match cs with
  | c :: cs' => if code c =? 10 then cs else skip_comment cs'
  | [] => []
  end.

(** The tokens of the text.  [depth] counts the open brackets: a line end
    inside brackets is blank.  Every step consumes a character, so the
    length of the text is fuel enough. *)
Fixpoint tokens (fuel : nat) (depth : Z) (cs : list ascii) : result (list token) :=
  match fuel, cs with
  | _, [] => if depth =? 0 then Ok [] else syntax_error
  | O, _ => syntax_error
  | S fuel', c :: cs' =>
      if (code c =? 32) || (code c =? 9) || (code c =? 12) then tokens fuel' depth cs'
      else if (code c =? 10) || (code c =? 13) then
        if 0 <? depth then tokens fuel' depth cs'
        else ts ← tokens fuel' depth cs'; Ok (NEWLINE :: ts)
      else if code c =? 35 then tokens fuel' depth (skip_comment cs')
      else if Ascii.eqb c "\" then
        match cs' with
        | d :: cs'' => if code d =? 10 then tokens fuel' depth cs'' else syntax_error
        | [] => syntax_error
        end
      else if is_digit c
              || (Ascii.eqb c "." && match cs' with d :: _ => is_digit d | [] => false end)
      then
        '(v, rest) ← number cs;
        ts ← tokens fuel' depth rest; Ok (NUMBER v :: ts)
      else if is_alpha c then
        let '(n, rest) := name_chars cs in
        match rest with
        | q :: _ =>
            if Ascii.eqb q "'" || Ascii.eqb q "034" then syntax_error
            else ts ← tokens fuel' depth rest; Ok (name_token (string_of_list_ascii n) :: ts)
        | [] => Ok [name_token (string_of_list_ascii n)]
        end
      else if Ascii.eqb c "'" || Ascii.eqb c "034" then
        match cs' with
        | d :: e :: _ =>
            if Ascii.eqb d c && Ascii.eqb e c then syntax_error
            else
              match string_body c cs' with
              | Some (body, rest) =>
                  ts ← tokens fuel' depth rest; Ok (STRING (string_of_list_ascii body) :: ts)
              | None => syntax_error
              end
        | _ =>
            match string_body c cs' with
            | Some (body, rest) =>
                ts ← tokens fuel' depth rest; Ok (STRING (string_of_list_ascii body) :: ts)
            | None => syntax_error
            end
        end
      else
        match operator cs with
        | Some (p, rest) =>
            let depth' :=
              match p with
              | LPar | LSqb | LBrace => depth + 1
              | RPar | RSqb | RBrace => depth - 1
              | _ => depth
              end in
            if depth' <? 0 then syntax_error
            else ts ← tokens fuel' depth' rest; Ok (OP p :: ts)
        | None => syntax_error
        end
  end.

Definition tokenize (source : string) : result (list token) :=
  let cs := list_ascii_of_string source in
  match cs with
  | c :: _ =>
      (* an indented first line is an IndentationError *)
      if (code c =? 32) || (code c =? 9) then syntax_error
      else tokens (S (List.length cs)) 0 cs
  | [] => syntax_error
  end.

(** *** Grammar *)

Abbreviation parsed A := (result (A * list token)).

Definition load_name (id : string) : ast.AST := ast.Name id ast.Load.
Definition store_name (id : string) : ast.AST := ast.Name id ast.Store.

(** The binary operators below comparisons, by binding strength. *)
Definition binary_level (p : punct) : option (nat * ast.AST) :=
  match p with
  | VBar => Some (1, ast.BitOr)
  | Circumflex => Some (2, ast.BitXor)
  | Amper => Some (3, ast.BitAnd)
  | LeftShift => Some (4, ast.LShift)
  | RightShift => Some (4, ast.RShift)
  | Plus => Some (5, ast.Add)
  | Minus => Some (5, ast.Sub)
  | Star => Some (6, ast.Mult)
  | Slash => Some (6, ast.Div)
  | DoubleSlash => Some (6, ast.FloorDiv)
  | Percent => Some (6, ast.Mod)
  | At => Some (6, ast.MatMult)
  | _ => None
  end%nat.

(** A comparison operator at the head of the tokens. *)
Definition compare_op (ts : list token) : option (ast.AST * list token) :=
  match ts with
  | OP EqEqual :: r => Some (ast.Eq, r)
  | OP NotEqual :: r => Some (ast.NotEq, r)
  | OP LessEqual :: r => Some (ast.LtE, r)
  | OP Less :: r => Some (ast.Lt, r)
  | OP GreaterEqual :: r => Some (ast.GtE, r)
  | OP Greater :: r => Some (ast.Gt, r)
  | KEYWORD kw_not :: KEYWORD kw_in :: r => Some (ast.NotIn, r)
  | KEYWORD kw_in :: r => Some (ast.In, r)
  | KEYWORD kw_is :: KEYWORD kw_not :: r => Some (ast.IsNot, r)
  | KEYWORD kw_is :: r => Some (ast.Is, r)
  | _ => None
  end.

(** Adjacent string literals are one constant. *)
Fixpoint strings (acc : string) (ts : list token) : string * list token :=
  match ts with
  | STRING s :: r => strings (acc ++ s) r
  | _ => (acc, ts)
  end.

(** for-targets: a name, or names separated by commas. *)
Fixpoint target_names (fuel : nat) (ts : list token) : parsed (list ast.AST) :=
  match fuel, ts with
  | S fuel', NAME n :: OP Comma :: (NAME _ :: _) as r =>
      '(ns, r') ← target_names fuel' r; Ok (store_name n :: ns, r')
  | _, NAME n :: r => Ok ([store_name n], r)
  | _, _ => syntax_error
  end.

Definition target (ts : list token) : parsed ast.AST :=
  '(ns, r) ← target_names (List.length ts) ts;
  match ns with
  | [n] => Ok (n, r)
  | _ => Ok (ast.Tuple ns ast.Store, r)
  end.

(** lambda parameters: names separated by commas, up to the colon. *)
Fixpoint parameters (fuel : nat) (ts : list token) : parsed (list ast.AST) :=
  match fuel, ts with
  | _, OP Colon :: r => Ok ([], r)
  | S fuel', NAME n :: OP Comma :: r =>
      '(ps, r') ← parameters fuel' r; Ok (ast.arg n None :: ps, r')
  | _, NAME n :: OP Colon :: r => Ok ([ast.arg n None], r)
  | _, _ => syntax_error
  end.

Definition keyword_names (kws : list ast.AST) : list string :=
  flat_map (fun k => match k with ast.keyword (Some n) _ => [n] | _ => [] end) kws.

Fixpoint expression (fuel : nat) (ts : list token) {struct fuel} : parsed ast.AST :=
  match fuel with
  | O => syntax_error
  | S fuel' =>
      match ts with
      | KEYWORD kw_lambda :: r =>
          '(ps, r1) ← parameters (List.length r) r;
          '(body, r2) ← expression fuel' r1;
          Ok (ast.Lambda (ast.arguments [] ps None [] [] None []) body, r2)
      | _ =>
          '(body, r1) ← disjunction fuel' ts;
          match r1 with
          | KEYWORD kw_if :: r2 =>
              '(test, r3) ← disjunction fuel' r2;
              match r3 with
              | KEYWORD kw_else :: r4 =>
                  '(orelse, r5) ← expression fuel' r4;
                  Ok (ast.IfExp test body orelse, r5)
              | _ => syntax_error
              end
          | _ => Ok (body, r1)
          end
      end
  end

(** [name := expression] or an expression *)
with named_expression (fuel : nat) (ts : list token) {struct fuel} : parsed ast.AST :=
  match fuel with
  | O => syntax_error
  | S fuel' =>
      match ts with
      | NAME n :: OP ColonEqual :: r =>
          '(v, r1) ← expression fuel' r; Ok (ast.NamedExpr (store_name n) v, r1)
      | _ => expression fuel' ts
      end
  end

with disjunction (fuel : nat) (ts : list token) {struct fuel} : parsed ast.AST :=
  match fuel with
  | O => syntax_error
  | S fuel' =>
      '(first, r) ← conjunction fuel' ts;
      match r with
      | KEYWORD kw_or :: _ =>
          '(others, r') ← bool_rest fuel' kw_or r;
          Ok (ast.BoolOp ast.Or (first :: others), r')
      | _ => Ok (first, r)
      end
  end

with conjunction (fuel : nat) (ts : list token) {struct fuel} : parsed ast.AST :=
  match fuel with
  | O => syntax_error
  | S fuel' =>
      '(first, r) ← inversion fuel' ts;
      match r with
      | KEYWORD kw_and :: _ =>
          '(others, r') ← bool_rest fuel' kw_and r;
          Ok (ast.BoolOp ast.And (first :: others), r')
      | _ => Ok (first, r)
      end
  end

(** the operands after the first of [or] (conjunctions) or [and]
    (inversions) *)
with bool_rest (fuel : nat) (k : keyword) (ts : list token) {struct fuel}
  : parsed (list ast.AST) :=
  match fuel with
  | O => syntax_error
  | S fuel' =>
      match ts, k with
      | KEYWORD kw_or :: r, kw_or =>
          '(e, r1) ← conjunction fuel' r;
          '(es, r2) ← bool_rest fuel' k r1; Ok (e :: es, r2)
      | KEYWORD kw_and :: r, kw_and =>
          '(e, r1) ← inversion fuel' r;
          '(es, r2) ← bool_rest fuel' k r1; Ok (e :: es, r2)
      | _, _ => Ok ([], ts)
      end
  end

with inversion (fuel : nat) (ts : list token) {struct fuel} : parsed ast.AST :=
  match fuel with
  | O => syntax_error
  | S fuel' =>
      match ts with
      | KEYWORD kw_not :: r =>
          '(e, r1) ← inversion fuel' r; Ok (ast.UnaryOp ast.Not e, r1)
      | _ => comparison fuel' ts
      end
  end

with comparison (fuel : nat) (ts : list token) {struct fuel} : parsed ast.AST :=
  match fuel with
  | O => syntax_error
  | S fuel' =>
      '(lhs, r) ← binary fuel' 1%nat ts;
      '(pairs, r1) ← comparison_rest fuel' r;
      match pairs with
      | [] => Ok (lhs, r1)
      | _ => Ok (ast.Compare lhs (map fst pairs) (map snd pairs), r1)
      end
  end

with comparison_rest (fuel : nat) (ts : list token) {struct fuel}
  : parsed (list (ast.AST * ast.AST)) :=
  match fuel with
  | O => syntax_error
  | S fuel' =>
      match compare_op ts with
      | Some (op, r) =>
          '(e, r1) ← binary fuel' 1%nat r;
          '(ps, r2) ← comparison_rest fuel' r1; Ok ((op, e) :: ps, r2)
      | None => Ok ([], ts)
      end
  end

(** the left-associative operators of one level and above *)
with binary (fuel : nat) (level : nat) (ts : list token) {struct fuel} : parsed ast.AST :=
  match fuel with
  | O => syntax_error
  | S fuel' =>
      '(lhs, r) ← (if Nat.ltb 6 level then factor fuel' ts
                    else binary fuel' (S level) ts);
      if Nat.ltb 6 level then Ok (lhs, r) else binary_rest fuel' level lhs r
  end

with binary_rest (fuel : nat) (level : nat) (lhs : ast.AST) (ts : list token)
  {struct fuel} : parsed ast.AST :=
  match fuel with
  | O => syntax_error
  | S fuel' =>
      match ts with
      | OP p :: r =>
          match binary_level p with
          | Some (l, op) =>
              if Nat.eqb l level then
                '(rhs, r1) ← binary fuel' (S level) r;
                binary_rest fuel' level (ast.BinOp lhs op rhs) r1
              else Ok (lhs, ts)
          | None => Ok (lhs, ts)
          end
      | _ => Ok (lhs, ts)
      end
  end

with factor (fuel : nat) (ts : list token) {struct fuel} : parsed ast.AST :=
  match fuel with
  | O => syntax_error
  | S fuel' =>
      match ts with
      | OP Plus :: r => '(e, r1) ← factor fuel' r; Ok (ast.UnaryOp ast.UAdd e, r1)
      | OP Minus :: r => '(e, r1) ← factor fuel' r; Ok (ast.UnaryOp ast.USub e, r1)
      | OP Tilde :: r => '(e, r1) ← factor fuel' r; Ok (ast.UnaryOp ast.Invert e, r1)
      | _ =>
          '(base, r) ← primary fuel' ts;
          match r with
          | OP DoubleStar :: r1 =>
              '(e, r2) ← factor fuel' r1; Ok (ast.BinOp base ast.Pow e, r2)
          | _ => Ok (base, r)
          end
      end
  end

with primary (fuel : nat) (ts : list token) {struct fuel} : parsed ast.AST :=
  match fuel with
  | O => syntax_error
  | S fuel' => '(a, r) ← atom fuel' ts; trailers fuel' a r
  end

(** attribute references, calls and subscriptions after a primary *)
with trailers (fuel : nat) (e : ast.AST) (ts : list token) {struct fuel} : parsed ast.AST :=
  match fuel with
  | O => syntax_error
  | S fuel' =>
      match ts with
      | OP Dot :: NAME n :: r => trailers fuel' (ast.Attribute e n ast.Load) r
      | OP Dot :: _ => syntax_error
      | OP LPar :: r =>
          '((args, kws), r1) ← arguments fuel' false r;
          if NoDup_dec_bool (keyword_names kws)
          then trailers fuel' (ast.Call e args kws) r1
          else syntax_error
      | OP LSqb :: r =>
          '((items, is_tuple), r1) ← slices fuel' r;
          match items, is_tuple with
          | [i], false => trailers fuel' (ast.Subscript e i ast.Load) r1
          | [], _ => syntax_error
          | _, _ => trailers fuel' (ast.Subscript e (ast.Tuple items ast.Load) ast.Load) r1
          end
      | _ => Ok (e, ts)
      end
  end

(** the arguments of a call up to the closing parenthesis; [seen_kw]
    records that a keyword argument has been read *)
with arguments (fuel : nat) (seen_kw : bool) (ts : list token) {struct fuel}
  : parsed (list ast.AST * list ast.AST) :=
  match fuel with
  | O => syntax_error
  | S fuel' =>
      let continue (seen : bool) (r : list token) (add : list ast.AST * list ast.AST) :=
        match r with
        | OP Comma :: r' =>
            '((args, kws), r'') ← arguments fuel' seen r';
            Ok ((fst add ++ args, snd add ++ kws)%list, r'')
        | OP RPar :: r' => Ok (add, r')
        | _ => syntax_error
        end in
      match ts with
      | OP RPar :: r => Ok (([], []), r)
      | OP DoubleStar :: r =>
          '(e, r1) ← expression fuel' r; continue true r1 ([], [ast.keyword None e])
      | OP Star :: r =>
          '(e, r1) ← expression fuel' r; continue seen_kw r1 ([ast.Starred e ast.Load], [])
      | NAME n :: OP Equal :: r =>
          '(e, r1) ← expression fuel' r; continue true r1 ([], [ast.keyword (Some n) e])
      | _ =>
          if seen_kw then syntax_error
          else '(e, r1) ← named_expression fuel' ts; continue false r1 ([e], [])
      end
  end

(** subscripts up to the closing bracket; the flag tells a tuple (a comma
    was read) from a single item *)
with slices (fuel : nat) (ts : list token) {struct fuel}
  : parsed (list ast.AST * bool) :=
  match fuel with
  | O => syntax_error
  | S fuel' =>
      match ts with
      | OP RSqb :: r => Ok (([], false), r)
      | _ =>
          '(i, r) ← slice fuel' ts;
          match r with
          | OP RSqb :: r1 => Ok (([i], false), r1)
          | OP Comma :: r1 =>
              '((others, _), r2) ← slices fuel' r1; Ok ((i :: others, true), r2)
          | _ => syntax_error
          end
      end
  end

(** [lower:upper:step] or an expression *)
with slice (fuel : nat) (ts : list token) {struct fuel} : parsed ast.AST :=
  match fuel with
  | O => syntax_error
  | S fuel' =>
      let bound (r : list token) : parsed (option ast.AST) :=
        match r with
        | OP Colon :: _ | OP RSqb :: _ | OP Comma :: _ => Ok (None, r)
        | _ => '(e, r') ← expression fuel' r; Ok (Some e, r')
        end in
      '(lower, r) ← bound ts;
      match r with
      | OP Colon :: r1 =>
          '(upper, r2) ← bound r1;
          match r2 with
          | OP Colon :: r3 =>
              '(step, r4) ← bound r3; Ok (ast.Slice lower upper step, r4)
          | _ => Ok (ast.Slice lower upper None, r2)
          end
      | _ =>
          match lower with
          | Some e => Ok (e, r)
          | None => syntax_error
          end
      end
  end

(** the clauses [for target in iterable if condition ...] of a
    comprehension *)
with generators (fuel : nat) (ts : list token) {struct fuel} : parsed (list ast.AST) :=
  match fuel with
  | O => syntax_error
  | S fuel' =>
      match ts with
      | KEYWORD kw_for :: r =>
          '(t, r1) ← target r;
          match r1 with
          | KEYWORD kw_in :: r2 =>
              '(it, r3) ← disjunction fuel' r2;
              '(conds, r4) ← conditions fuel' r3;
              '(gs, r5) ← generators fuel' r4;
              Ok (ast.comprehension t it conds :: gs, r5)
          | _ => syntax_error
          end
      | _ => Ok ([], ts)
      end
  end

with conditions (fuel : nat) (ts : list token) {struct fuel} : parsed (list ast.AST) :=
  match fuel with
  | O => syntax_error
  | S fuel' =>
      match ts with
      | KEYWORD kw_if :: r =>
          '(c, r1) ← disjunction fuel' r;
          '(cs, r2) ← conditions fuel' r1; Ok (c :: cs, r2)
      | _ => Ok ([], ts)
      end
  end

(** expressions separated by commas up to [close]; the flag records a
    comma *)
with elements (fuel : nat) (close : punct) (ts : list token) {struct fuel}
  : parsed (list ast.AST * bool) :=
  match fuel with
  | O => syntax_error
  | S fuel' =>
      match ts with
      | OP p :: r =>
          if punct_eqb p close then Ok (([], false), r)
          else
            '(e, r1) ← named_expression fuel' ts;
            match r1 with
            | OP Comma :: r2 =>
                '((es, _), r3) ← elements fuel' close r2; Ok ((e :: es, true), r3)
            | OP q :: r2 => if punct_eqb q close then Ok (([e], false), r2) else syntax_error
            | _ => syntax_error
            end
      | _ =>
          '(e, r1) ← named_expression fuel' ts;
          match r1 with
          | OP Comma :: r2 =>
              '((es, _), r3) ← elements fuel' close r2; Ok ((e :: es, true), r3)
          | OP q :: r2 => if punct_eqb q close then Ok (([e], false), r2) else syntax_error
          | _ => syntax_error
          end
      end
  end

(** [key: value] and [**mapping] items up to the closing brace *)
with dict_items (fuel : nat) (ts : list token) {struct fuel}
  : parsed (list (option ast.AST) * list ast.AST) :=
  match fuel with
  | O => syntax_error
  | S fuel' =>
      let continue (r : list token) (k : option ast.AST) (v : ast.AST) :=
        match r with
        | OP Comma :: r' =>
            '((ks, vs), r'') ← dict_items fuel' r'; Ok ((k :: ks, v :: vs), r'')
        | OP RBrace :: r' => Ok (([k], [v]), r')
        | _ => syntax_error
        end in
      match ts with
      | OP RBrace :: r => Ok (([], []), r)
      | OP DoubleStar :: r => '(v, r1) ← binary fuel' 1%nat r; continue r1 None v
      | _ =>
          '(k, r1) ← expression fuel' ts;
          match r1 with
          | OP Colon :: r2 => '(v, r3) ← expression fuel' r2; continue r3 (Some k) v
          | _ => syntax_error
          end
      end
  end

with atom (fuel : nat) (ts : list token) {struct fuel} : parsed ast.AST :=
  match fuel with
  | O => syntax_error
  | S fuel' =>
      match ts with
      | NAME n :: r => Ok (load_name n, r)
      | KEYWORD kw_True :: r => Ok (ast.Constant (VBool true), r)
      | KEYWORD kw_False :: r => Ok (ast.Constant (VBool false), r)
      | KEYWORD kw_None :: r => Ok (ast.Constant VNone, r)
      | NUMBER v :: r => Ok (ast.Constant v, r)
      | STRING _ :: _ => let '(s, r) := strings "" ts in Ok (ast.Constant (VStr s), r)
      | OP Ellipsis :: r => Ok (ast.Constant VEllipsis, r)
      | OP LPar :: OP RPar :: r => Ok (ast.Tuple [] ast.Load, r)
      | OP LPar :: r =>
          '(e, r1) ← named_expression fuel' r;
          match r1 with
          | OP RPar :: r2 => Ok (e, r2)
          | KEYWORD kw_for :: _ =>
              '(gs, r2) ← generators fuel' r1;
              match r2 with
              | OP RPar :: r3 => Ok (ast.GeneratorExp e gs, r3)
              | _ => syntax_error
              end
          | OP Comma :: r2 =>
              '((es, _), r3) ← elements fuel' RPar r2;
              Ok (ast.Tuple (e :: es) ast.Load, r3)
          | _ => syntax_error
          end
      | OP LSqb :: OP RSqb :: r => Ok (ast.List [] ast.Load, r)
      | OP LSqb :: r =>
          '(e, r1) ← named_expression fuel' r;
          match r1 with
          | OP RSqb :: r2 => Ok (ast.List [e] ast.Load, r2)
          | KEYWORD kw_for :: _ =>
              '(gs, r2) ← generators fuel' r1;
              match r2 with
              | OP RSqb :: r3 => Ok (ast.ListComp e gs, r3)
              | _ => syntax_error
              end
          | OP Comma :: r2 =>
              '((es, _), r3) ← elements fuel' RSqb r2;
              Ok (ast.List (e :: es) ast.Load, r3)
          | _ => syntax_error
          end
      | OP LBrace :: OP RBrace :: r => Ok (ast.Dict [] [], r)
      | OP LBrace :: OP DoubleStar :: _ =>
          '((ks, vs), r1) ← dict_items fuel' (tl ts); Ok (ast.Dict ks vs, r1)
      | OP LBrace :: r =>
          '(e, r1) ← named_expression fuel' r;
          match r1 with
          | OP RBrace :: r2 => Ok (ast.Set_ [e], r2)
          | OP Comma :: r2 =>
              '((es, _), r3) ← elements fuel' RBrace r2; Ok (ast.Set_ (e :: es), r3)
          | KEYWORD kw_for :: _ =>
              '(gs, r2) ← generators fuel' r1;
              match r2 with
              | OP RBrace :: r3 => Ok (ast.SetComp e gs, r3)
              | _ => syntax_error
              end
          | OP Colon :: r2 =>
              '(v, r3) ← expression fuel' r2;
              match r3 with
              | KEYWORD kw_for :: _ =>
                  '(gs, r4) ← generators fuel' r3;
                  match r4 with
                  | OP RBrace :: r5 => Ok (ast.DictComp e v gs, r5)
                  | _ => syntax_error
                  end
              | OP RBrace :: r4 => Ok (ast.Dict [Some e] [v], r4)
              | OP Comma :: r4 =>
                  '((ks, vs), r5) ← dict_items fuel' r4;
                  Ok (ast.Dict (Some e :: ks) (v :: vs), r5)
              | _ => syntax_error
              end
          | _ => syntax_error
          end
      | _ => syntax_error
      end
  end.

(** expressions NEWLINE* ENDMARKER: one expression, or a tuple when commas
    separate several *)
Definition eval_input (fuel : nat) (ts : list token) : result ast.AST :=
  '(e, r) ← expression fuel ts;
  '(body, r1) ←
    match r with
    | OP Comma :: r' =>
        '((es, _), r'') ← elements fuel Other (r' ++ [OP Other])%list;
        Ok (ast.Tuple (e :: es) ast.Load, r'')
    | _ => Ok (e, r)
    end;
  if forallb (fun t => match t with NEWLINE => true | _ => false end) r1
  then Ok (ast.Expression body)
  else syntax_error.

(** [ast.parse(source, mode="eval")] on the subset.  Each call of the
    grammar uses one unit of fuel and the depth of calls between two
    tokens is bounded, so a multiple of the number of tokens is enough. *)
Definition parse (source : string) : result ast.AST :=
  ts ← tokenize source;
  eval_input (32 * S (List.length ts)) ts.

End Parser.

Definition py_parse : string -> result ast.AST := Parser.parse.

(** ** A platform for closed examples *)

(** A platform without a C library: its functions answer NaN, but for the
    values of [pow] that C99 fixes exactly, and its interpreter services
    are not modelled.  The examples that run on it have outcomes that no
    conforming platform changes. *)
Definition bare_platform : libm := {|
  c_sin := fun _ => PrimFloat.nan;
  c_cos := fun _ => PrimFloat.nan;
  c_tan := fun _ => PrimFloat.nan;
  c_asin := fun _ => PrimFloat.nan;
  c_acos := fun _ => PrimFloat.nan;
  c_atan := fun _ => PrimFloat.nan;
  c_sinh := fun _ => PrimFloat.nan;
  c_cosh := fun _ => PrimFloat.nan;
  c_tanh := fun _ => PrimFloat.nan;
  c_log := fun _ => PrimFloat.nan;
  c_log10 := fun _ => PrimFloat.nan;
  c_exp := fun _ => PrimFloat.nan;
  c_pow := fun x y =>
    (* the cases C99 fixes: pow(x, 0) = 1, pow(1, y) = 1, pow(+0, y > 0) = +0 *)
    if PrimFloat.eqb y 0 || PrimFloat.eqb x 1 then 1%float
    else if PrimFloat.eqb x 0 && PrimFloat.ltb 0 y && negb (PyFloat.signbit x)
    then 0%float else PrimFloat.nan;
  c_hypot := fun _ _ => PrimFloat.nan;
  py_complex_pow := fun _ _ => raise Unmodelled "complex power";
  py_format := fun _ _ => raise Unmodelled "string formatting";
  py_round_ndigits := fun _ _ => raise Unmodelled "round to digits"
|}.

(** [evaluate_expression] on a source text, in the freshly imported
    module, with the parser of the examples. *)
Definition run (M : libm) (source : string) : result float :=
  fst (evaluate_expression M py_parse (VStr source) module_init).

(** ** The HTTP handler *)

(** *** JSON *)

(** The objects that [json.loads] returns and [json.dumps] takes: [None],
    [bool], [int], [float], [str], [list] and [dict], the items of a
    [dict] in insertion order, each key once. *)
Inductive json :=
| JNull
| JBool (b : bool)
| JInt (n : Z)
| JFloat (x : float)
| JStr (s : string)
| JList (elements : list json)
| JDict (items : list (string * json)).

(** [d.get(key)] *)
Definition dict_get (items : list (string * json)) (key : string) : option json :=
  snd <$> find (fun item => String.eqb (fst item) key) items.

(** A decoded object as a [value].  [value] has the empty dictionary
    only; [evaluate_expression] asks of its argument whether it is true
    and whether it is a string, and for a dictionary it stops at the second
    question whatever the items are. *)
Fixpoint py_object (o : json) : value :=
  match o with
  | JNull => VNone
  | JBool b => VBool b
  | JInt n => VInt n
  | JFloat x => VFloat x
  | JStr s => VStr s
  | JList elements => VList (map py_object elements)
  | JDict _ => VDict
  end.

Definition quote : string := String "034"%char "".

(** [py_encode_basestring_ascii]: the characters outside [' '..'~'], the
    quote and the backslash are escaped. *)
Definition encode_basestring_ascii (s : string) : string :=
  let escape (c : ascii) : list ascii :=
    if Ascii.eqb c "034" then ["\"%char; "034"%char]
    else if Ascii.eqb c "\" then ["\"%char; "\"%char]
    else if code c =? 8 then ["\"%char; "b"%char]
    else if code c =? 12 then ["\"%char; "f"%char]
    else if code c =? 10 then ["\"%char; "n"%char]
    else if code c =? 13 then ["\"%char; "r"%char]
    else if code c =? 9 then ["\"%char; "t"%char]
    else if (code c <? 32) || (126 <? code c)
    then ["\"%char; "u"%char; "0"%char; "0"%char;
          hex_digit (code c / 16); hex_digit (code c mod 16)]
    else [c] in
  quote ++ string_of_list_ascii (flat_map escape (list_ascii_of_string s)) ++ quote.

(** The services of the interpreter under the handler: the UTF-8 decoder
    ([None] is [UnicodeDecodeError]), [json.loads] ([None] is
    [json.JSONDecodeError]) and [float.__repr__]. *)
Record codecs := {
  utf8_decode : string -> option string;
  json_loads : string -> option json;
  float_repr : float -> result string
}.

(** *** Requests and responses *)

(** What a handler reads of the request: the header fields in their
    order, and the [read] method of [rfile]. *)
Record request := {
  headers : list (string * string);
  rfile : Z -> result string
}.

(** [str.lower] on code points below 256. *)
Definition str_lower (s : string) : string :=
  string_of_list_ascii
    (map (fun c => if (192 <=? code c) && (code c <=? 222) && negb (code c =? 215)
                   then ascii_of_N (Z.to_N (code c + 32)) else lower c)
         (list_ascii_of_string s)).

(** [self.headers.get(name)]: the first field of that name, letter case
    aside. *)
Definition headers_get (fields : list (string * string)) (name : string) : option string :=
  snd <$> find (fun field => String.eqb (str_lower (fst field)) (str_lower name)) fields.

(** What a handler does to the connection, call by call. *)
Inductive event :=
| send_response (code : Z)
| send_header (keyword value : string)
| end_headers
| wfile_write (data : string).

(** What the [try] statement of [do_POST] can raise: the three classes of
    the decoding steps and the exceptions of [exn]. *)
Inductive fault :=
| JSONDecodeError
| UnicodeDecodeError
| AttributeError
| Python (exc : exn).

Inductive tried (A : Type) :=
| Returned (a : A)
| Thrown (f : fault).
Arguments Returned {A} a.
Arguments Thrown {A} f.

Global Instance tried_ret : MRet tried := fun A a => Returned a.
Global Instance tried_bind : MBind tried := fun A B k m =>
  match m with
  | Returned a => k a
  | Thrown f => Thrown f
  end.

Definition python {A} (r : result A) : tried A :=
  match r with
  | Ok a => Returned a
  | Raise exc => Thrown (Python exc)
  end.

Definition or_throw {A} (f : fault) (o : option A) : tried A :=
  match o with
  | Some a => Returned a
  | None => Thrown f
  end.

Section Handler.

Variable M : libm.
Variable ast_parse : string -> result ast.AST.
Variable P : codecs.

(** [floatstr] of the encoder, with [allow_nan] left at its default. *)
Definition floatstr (o : float) : result string :=
  if PrimFloat.is_nan o then Ok "NaN"
  else if PrimFloat.eqb o PrimFloat.infinity then Ok "Infinity"
  else if PrimFloat.eqb o PrimFloat.neg_infinity then Ok "-Infinity"
  else float_repr P o.

Definition dumps_each {A} (dumps : A -> result string) : list A -> result (list string) :=
  fix each (l : list A) : result (list string) :=
    match l with
    | [] => Ok []
    | o :: l' => chunk ← dumps o; chunks ← each l'; Ok (chunk :: chunks)
    end.

(** [json.dumps(obj)] with the default separators [", "] and [": "]. *)
Fixpoint json_dumps (obj : json) : result string :=
  match obj with
  | JNull => Ok "null"
  | JBool true => Ok "true"
  | JBool false => Ok "false"
  | JInt n => Ok (pretty n)
  | JFloat x => floatstr x
  | JStr s => Ok (encode_basestring_ascii s)
  | JList elements =>
      chunks ← dumps_each json_dumps elements;
      Ok ("[" ++ String.concat ", " chunks ++ "]")
  | JDict items =>
      chunks ← dumps_each (fun item : string * json =>
                  chunk ← json_dumps (snd item);
                  Ok (encode_basestring_ascii (fst item) ++ ": " ++ chunk)) items;
      Ok ("{" ++ String.concat ", " chunks ++ "}")
  end.

(** [_make_response]; [json.dumps] writes ASCII only, which
    [encode("utf-8")] leaves as it is. *)
Definition _make_response (status : Z) (payload : json) : result (Z * string) :=
  response ← json_dumps payload;
  Ok (status, response).

Definition _write_cors_headers : list event :=
  [ send_header "Access-Control-Allow-Origin" "*";
    send_header "Access-Control-Allow-Methods" "GET, POST, OPTIONS";
    send_header "Access-Control-Allow-Headers" "Content-Type" ].

Definition do_OPTIONS : list event :=
  ([send_response 204] ++ _write_cors_headers ++ [end_headers])%list.

(** *** [do_POST] *)

(** [content_length = int(self.headers.get("Content-Length", 0))] *)
Definition post_content_length (req : request) : result Z :=
  match headers_get (headers req) "Content-Length" with
  | Some v => int_of_string v
  | None => Ok 0
  end.

(** [raw_body = self.rfile.read(content_length) if content_length else b"{}"] *)
Definition post_raw_body (req : request) : result string :=
  content_length ← post_content_length req;
  if negb (content_length =? 0) then rfile req content_length else Ok "{}".

(** [data = json.loads(raw_body.decode("utf-8"))] *)
Definition post_data (req : request) : tried json :=
  raw_body ← python (post_raw_body req);
  text ← or_throw UnicodeDecodeError (utf8_decode P raw_body);
  or_throw JSONDecodeError (json_loads P text).

(** [expression = data.get("expression", "")]; only a [dict] has [get]. *)
Definition post_expression (req : request) : tried json :=
  data ← post_data req;
  match data with
  | JDict items => Returned (default (JStr "") (dict_get items "expression"))
  | _ => Thrown AttributeError
  end.

(** [do_POST]: the [try] statement with its three handlers, then the six
    calls that write the response. *)
Definition do_POST (req : request) (st : module_state)
  : result (list event) * module_state :=
  let '(attempt, st') :=
    match post_expression req with
    | Returned expression =>
        let '(outcome, st') :=
          evaluate_expression M ast_parse (py_object expression) st in
        (python (result ← outcome;
                 _make_response 200 (JDict [("result", JFloat result)])), st')
    | Thrown f => (Thrown f, st)
    end in
  let handled : result (Z * string) :=
    match attempt with
    | Returned made => Ok made
    | Thrown JSONDecodeError =>
        _make_response 400 (JDict [("error", JStr "Invalid JSON payload.")])
    | Thrown (Python exc) =>
        if exn_isinstance exc (Some EvaluationError)
        then _make_response 400 (JDict [("error", JStr (exn_msg exc))])
        else if exn_isinstance exc None
        then _make_response 500 (JDict [("error", JStr "Internal server error.")])
        else Raise exc
    | Thrown _ =>
        _make_response 500 (JDict [("error", JStr "Internal server error.")])
    end in
  ('(status, body) ← handled;
   Ok ([send_response status] ++ _write_cors_headers
       ++ [ send_header "Content-Type" "application/json";
            send_header "Content-Length" (pretty (String.length body));
            end_headers;
            wfile_write body ])%list,
   st').

(** *** [do_GET] *)

(** [d.keys()]; the order is of no account under [sorted]. *)
Definition dict_keys (d : gmap string value) : list string := fst <$> map_to_list d.

(** [sorted] on strings, which Python compares code point by code point. *)
Definition sorted (l : list string) : list string := merge_sort String.le l.

Definition do_GET (st : module_state) : result (list event) * module_state :=
  ('(status, body) ←
     _make_response 200
       (JDict
          [ ("message",
             JStr ("Scientific calculator API. Send POST requests with "
                   ++ "{" ++ quote ++ "expression" ++ quote ++ ": "
                   ++ quote ++ "<expression>" ++ quote ++ "} to evaluate."));
            ("available_functions", JList (JStr <$> sorted (dict_keys (SAFE_FUNCTIONS st))));
            ("available_constants", JList (JStr <$> sorted (dict_keys (SAFE_CONSTANTS st)))) ]);
   Ok ([send_response status] ++ _write_cors_headers
       ++ [ send_header "Content-Type" "application/json";
            send_header "Content-Length" (pretty (String.length body));
            end_headers;
            wfile_write body ])%list,
   st).

(** [log_message]: nothing is logged. *)
Definition log_message (format : string) (args : list value) : list event := [].

End Handler.

(** ** A decoder for the examples *)

(** [json.loads] on texts whose code points are below 256: objects,
    arrays, strings with their escapes, numbers and the names [null],
    [true], [false], [NaN], [Infinity] and [-Infinity].  [utf8_decode] on
    ASCII, and [float.__repr__] on the integral floats below [10 ^ 16],
    which Python writes with [.0]. *)
Module Decoder.

Definition is_ws (c : ascii) : bool :=
  (code c =? 32) || (code c =? 9) || (code c =? 10) || (code c =? 13).

Fixpoint skip (cs : list ascii) : list ascii :=
  match cs with
  | c :: cs' => if is_ws c then skip cs' else cs
  | [] => []
  end.

Definition hex_value (c : ascii) : option Z :=
  if is_digit c then Some (code c - 48)
  else if (97 <=? code (lower c)) && (code (lower c) <=? 102) then Some (code (lower c) - 87)
  else None.

(** The characters of a string after its opening quote. *)
Fixpoint chars (acc : list ascii) (cs : list ascii) : option (string * list ascii) :=
  match cs with
  | [] => None
  | "034"%char :: rest => Some (string_of_list_ascii (rev acc), rest)
  | "\"%char :: "u"%char :: h1 :: h2 :: h3 :: h4 :: rest =>
      match hex_value h1, hex_value h2, hex_value h3, hex_value h4 with
      | Some 0, Some 0, Some a, Some b => chars (ascii_of_N (Z.to_N (16 * a + b)) :: acc) rest
      | _, _, _, _ => None
      end
  | "\"%char :: c :: rest =>
      let unescaped : option ascii :=
        if Ascii.eqb c "034" || Ascii.eqb c "\" || Ascii.eqb c "/" then Some c
        else if Ascii.eqb c "b" then Some "008"%char
        else if Ascii.eqb c "f" then Some "012"%char
        else if Ascii.eqb c "n" then Some "010"%char
        else if Ascii.eqb c "r" then Some "013"%char
        else if Ascii.eqb c "t" then Some "009"%char
        else None in
      match unescaped with
      | Some d => chars (d :: acc) rest
      | None => None
      end
  | c :: rest => if code c <? 32 then None else chars (c :: acc) rest
  end.

Fixpoint digits (acc cnt : Z) (cs : list ascii) : Z * Z * list ascii :=
  match cs with
  | c :: cs' =>
      if is_digit c then digits (10 * acc + (code c - 48)) (cnt + 1) cs' else (acc, cnt, cs)
  | [] => (acc, cnt, cs)
  end.

(** number ::= ["-"] int [frac] [exp]; an [int] when neither a fraction
    nor an exponent is written. *)
Definition number (cs : list ascii) : option (json * list ascii) :=
  let '(neg, ds) := match cs with "-"%char :: ds => (true, ds) | _ => (false, cs) end in
  let '(ip, icnt, rest) := digits 0 0 ds in
  let leading_zero := match ds with "0"%char :: _ => 1 <? icnt | _ => false end in
  if (icnt =? 0) || leading_zero then None
  else
    let frac : option (Z * Z * list ascii) :=
      match rest with
      | "."%char :: rest' =>
          let '(m, fcnt, rest'') := digits ip 0 rest' in
          if fcnt =? 0 then None else Some (m, fcnt, rest'')
      | _ => Some (ip, 0, rest)
      end in
    match frac with
    | None => None
    | Some (m, fcnt, rest') =>
        let exp : option (option Z * list ascii) :=
          match rest' with
          | c :: rest'' =>
              if Ascii.eqb (lower c) "e" then
                let '(eneg, es) := split_sign rest'' in
                let '(e, ecnt, rest3) := digits 0 0 es in
                if ecnt =? 0 then None else Some (Some (if eneg then - e else e), rest3)
              else Some (None, rest')
          | [] => Some (None, rest')
          end in
        match exp with
        | None => None
        | Some (None, rest'') =>
            if fcnt =? 0 then Some (JInt (if neg then - ip else ip), rest'')
            else Some (JFloat (float_of_decimal neg m (- fcnt)), rest'')
        | Some (Some e, rest'') => Some (JFloat (float_of_decimal neg m (e - fcnt)), rest'')
        end
    end.

Fixpoint after_word (word cs : list ascii) : option (list ascii) :=
  match word, cs with
  | [], _ => Some cs
  | w :: word', c :: cs' => if Ascii.eqb w c then after_word word' cs' else None
  | _ :: _, [] => None
  end.

Definition name (cs : list ascii) : option (json * list ascii) :=
  fold_right
    (fun (entry : string * json) other =>
       match after_word (list_ascii_of_string (fst entry)) cs with
       | Some rest => Some (snd entry, rest)
       | None => other
       end)
    None
    [ ("null", JNull); ("true", JBool true); ("false", JBool false);
      ("NaN", JFloat PrimFloat.nan); ("Infinity", JFloat PrimFloat.infinity);
      ("-Infinity", JFloat PrimFloat.neg_infinity) ].

(** A later item of a key replaces the earlier one, in its place. *)
Fixpoint dict_set (items : list (string * json)) (key : string) (o : json)
  : list (string * json) :=
  match items with
  | [] => [(key, o)]
  | (k, v) :: items' =>
      if String.eqb k key then (k, o) :: items' else (k, v) :: dict_set items' key o
  end.

Fixpoint element (fuel : nat) (cs : list ascii) : option (json * list ascii) :=
  match fuel with
  | O => None
  | S fuel' =>
      match skip cs with
      | "034"%char :: rest => '(s, rest') ← chars [] rest; Some (JStr s, rest')
      | "["%char :: rest =>
          match skip rest with
          | "]"%char :: rest' => Some (JList [], rest')
          | _ => '(l, rest') ← elements fuel' rest; Some (JList l, rest')
          end
      | "{"%char :: rest =>
          match skip rest with
          | "}"%char :: rest' => Some (JDict [], rest')
          | _ => '(d, rest') ← members fuel' [] rest; Some (JDict d, rest')
          end
      | c :: rest =>
          if is_digit c || Ascii.eqb c "-"
          then match number (c :: rest) with
               | Some r => Some r
               | None => name (c :: rest)
               end
          else name (c :: rest)
      | [] => None
      end
  end
with elements (fuel : nat) (cs : list ascii) : option (list json * list ascii) :=
  match fuel with
  | O => None
  | S fuel' =>
      '(o, rest) ← element fuel' cs;
      match skip rest with
      | ","%char :: rest' => '(l, rest'') ← elements fuel' rest'; Some (o :: l, rest'')
      | "]"%char :: rest' => Some ([o], rest')
      | _ => None
      end
  end
with members (fuel : nat) (acc : list (string * json)) (cs : list ascii)
  : option (list (string * json) * list ascii) :=
  match fuel with
  | O => None
  | S fuel' =>
      match skip cs with
      | "034"%char :: rest =>
          '(key, rest') ← chars [] rest;
          match skip rest' with
          | ":"%char :: rest'' =>
              '(o, rest3) ← element fuel' rest'';
              match skip rest3 with
              | ","%char :: rest4 => members fuel' (dict_set acc key o) rest4
              | "}"%char :: rest4 => Some (dict_set acc key o, rest4)
              | _ => None
              end
          | _ => None
          end
      | _ => None
      end
  end.

Definition loads (s : string) : option json :=
  let cs := list_ascii_of_string s in
  '(o, rest) ← element (S (List.length cs)) cs;
  match skip rest with
  | [] => Some o
  | _ => None
  end.

Definition decode_ascii (raw : string) : option string :=
  if forallb (fun c => code c <? 128) (list_ascii_of_string raw) then Some raw else None.

Definition repr_integral (x : float) : result string :=
  match PyFloat.to_exact x with
  | Some (m, e) =>
      if PyFloat.integral_exact m e && (Z.abs (PyFloat.trunc_exact m e) <? 10 ^ 16)
      then Ok ((if PyFloat.signbit x && (PyFloat.trunc_exact m e =? 0) then "-" else "")
               ++ pretty (PyFloat.trunc_exact m e) ++ ".0")
      else raise Unmodelled "float repr"
  | None => raise Unmodelled "float repr"
  end.

End Decoder.

Definition bare_codecs : codecs := {|
  utf8_decode := Decoder.decode_ascii;
  json_loads := Decoder.loads;
  float_repr := Decoder.repr_integral
|}.

(** A request with a body: its [Content-Length] field, and the stream
    that [read] cuts. *)
Definition post (body : string) : request := {|
  headers := [("Content-Type", "application/json");
              ("Content-Length", pretty (String.length body))];
  rfile := fun n => Ok (String.substring 0 (Z.to_nat n) body)
|}.

(** * Properties *)

(** ** Vocabulary *)

(** [within n root]: [n] is [root] or one of its descendants, the nodes
    that [ast.walk(root)] yields. *)
Inductive within : ast.AST -> ast.AST -> Prop :=
| within_self n : within n n
| within_child n child root :
    child ∈ ast.iter_child_nodes root -> within n child -> within n root.

Definition allowed (node : ast.AST) : bool := isinstance node ALLOWED_NODES.





(** [reaches ev root n]: the evaluation of [root] evaluates the node [n],
    every operand that Python evaluates before [n] having returned.  [ev]
    is the evaluator of the namespaces at hand. *)
Inductive reaches (ev : ast.AST -> result value) : ast.AST -> ast.AST -> Prop :=
| reaches_here n : reaches ev n n
| reaches_body body n :
    reaches ev body n -> reaches ev (ast.Expression body) n
| reaches_left lhs op rhs n :
    reaches ev lhs n -> reaches ev (ast.BinOp lhs op rhs) n
| reaches_right lhs op rhs a n :
    ev lhs = Ok a -> reaches ev rhs n -> reaches ev (ast.BinOp lhs op rhs) n
| reaches_operand op operand n :
    reaches ev operand n -> reaches ev (ast.UnaryOp op operand) n
| reaches_func func args keywords n :
    reaches ev func n -> reaches ev (ast.Call func args keywords) n
| reaches_arg func args keywords f (before : list ast.AST) a after vs n :
    ev func = Ok f -> args = (before ++ a :: after)%list ->
    eval_each ev before = Ok vs -> reaches ev a n ->
    reaches ev (ast.Call func args keywords) n
| reaches_keyword func args keywords f vs (before : list ast.AST) name v after kws n :
    ev func = Ok f -> eval_each ev args = Ok vs ->
    keywords = (before ++ ast.keyword name v :: after)%list ->
    eval_keywords ev before = Ok kws -> reaches ev v n ->
    reaches ev (ast.Call func args keywords) n
| reaches_tuple elts (before : list ast.AST) e after vs n :
    elts = (before ++ e :: after)%list -> eval_each ev before = Ok vs ->
    reaches ev e n -> reaches ev (ast.Tuple elts ast.Load) n
| reaches_list elts (before : list ast.AST) e after vs n :
    elts = (before ++ e :: after)%list -> eval_each ev before = Ok vs ->
    reaches ev e n -> reaches ev (ast.List elts ast.Load) n.



(** The evaluator of the freshly imported module. *)
Definition eval_init (M : libm) : ast.AST -> result value :=
  eval M safe_globals
    (safe_locals (SAFE_FUNCTIONS module_init) (SAFE_CONSTANTS module_init)).

(** The call [f(a)] of what the name [f] denotes. *)
Definition call_of (f : string) (a : ast.AST) : ast.AST :=
  ast.Call (ast.Name f ast.Load) [a] [].

(** [is_function v]: the value is a callable. *)
Definition is_function (v : value) : bool :=
  match v with VFunc _ => true | _ => false end.

(** [literal_constants root]: no [Constant] of the tree holds a function,
    which is so of every tree that a parser builds from a text. *)
Definition literal_constants (root : ast.AST) : Prop :=
  forall c, ~ within (ast.Constant (VFunc c)) root.


(** The six calls that write a response with a body. *)
Definition response (status : Z) (body : string) : list event :=
  [ send_response status;
    send_header "Access-Control-Allow-Origin" "*";
    send_header "Access-Control-Allow-Methods" "GET, POST, OPTIONS";
    send_header "Access-Control-Allow-Headers" "Content-Type";
    send_header "Content-Type" "application/json";
    send_header "Content-Length" (pretty (String.length body));
    end_headers;
    wfile_write body ].

(** The JSON text of an object, from the texts of its values. *)
Definition json_object (members : list (string * string)) : string :=
  "{" ++ String.concat ", "
           (map (fun member => encode_basestring_ascii (fst member) ++ ": " ++ snd member)
                members)
  ++ "}".

(** The JSON texts of [{"error": message}], of [{"result": x}], [text]
    being the text of [x], and of [{"expression": source}]. *)
Definition error_body (message : string) : string :=
  json_object [("error", encode_basestring_ascii message)].

Definition result_body (text : string) : string := json_object [("result", text)].

Definition expression_body (source : string) : string :=
  json_object [("expression", encode_basestring_ascii source)].

(** The JSON text of a list of strings. *)
Definition json_list (l : list string) : string :=
  "[" ++ String.concat ", " (encode_basestring_ascii <$> l) ++ "]".

(** The JSON text of the object that [do_GET] serves. *)
Definition index_body (functions constants : list string) : string :=
  json_object
    [ ("message",
       encode_basestring_ascii
         ("Scientific calculator API. Send POST requests with "
          ++ "{" ++ quote ++ "expression" ++ quote ++ ": "
          ++ quote ++ "<expression>" ++ quote ++ "} to evaluate."));
      ("available_functions", json_list functions);
      ("available_constants", json_list constants) ].

(** [lists d l]: [l] holds the keys of [d], each once, in ascending
    order. *)
Definition lists (d : gmap string value) (l : list string) : Prop :=
  StronglySorted String.le l /\ NoDup l /\ forall id, id ∈ l <-> is_Some (d !! id).

Definition is_dict (o : json) : bool :=
  match o with JDict _ => true | _ => false end.

(** ** Induction on trees *)



(** ** The validator *)


Lemma bind_assoc {A B C} (m : result A) (f : A -> result B) (g : B -> result C) :
  (m ≫= f) ≫= g = m ≫= (fun a => f a ≫= g).
Proof. now destruct m. Qed.









(** ** The pipeline *)

Section Evaluator.

Variable M : libm.
Variable ast_parse : string -> result ast.AST.

(** On a non-empty string the guard of [evaluate_expression] passes and
    the four stages run. *)
Lemma evaluate_with_source functions constants source :
  source <> "" ->
  evaluate_with M ast_parse functions constants (VStr source) =
  (parsed ← ast_parse source;
   _validate_node parsed;;
   match eval M safe_globals (safe_locals functions constants) parsed with
   | Raise exc => Raise (translate_fault exc)
   | Ok result =>
       if isinstance_complex result
       then raise EvaluationError "Complex results are not supported."
       else py_float result
   end).
Proof.
  intros Hne. unfold evaluate_with. simpl.
  apply String.eqb_neq in Hne. rewrite Hne. simpl.
  destruct (ast_parse source); reflexivity.
Qed.

(** A tree that parses and passes the validator is evaluated; the outcome
    is the translation of what [eval] and [float] give. *)
Lemma evaluate_with_valid functions constants source parsed :
  source <> "" -> ast_parse source = Ok parsed -> _validate_node parsed = Ok tt ->
  evaluate_with M ast_parse functions constants (VStr source) =
  match eval M safe_globals (safe_locals functions constants) parsed with
  | Raise exc => Raise (translate_fault exc)
  | Ok result =>
      if isinstance_complex result
      then raise EvaluationError "Complex results are not supported."
      else py_float result
  end.
Proof.
  intros Hne Hp Hv. rewrite evaluate_with_source by exact Hne.
  rewrite Hp. simpl. rewrite Hv. reflexivity.
Qed.

(** A failure of the parser leaves [evaluate_expression] as it is: the
    call of [ast.parse] stands outside the [try] statement. *)
Lemma parse_failure_propagates expression source e st :
  expression = VStr source -> source <> "" -> ast_parse source = Raise e ->
  evaluate_expression M ast_parse expression st = (Raise e, st).
Proof.
  intros -> Hne Hp. unfold evaluate_expression.
  rewrite evaluate_with_source by exact Hne. now rewrite Hp.
Qed.

(** C7.  An expression that is the empty string, or not a string at all,
    is refused with [EvaluationError("Expression is empty.")].  The
    parser takes no part: the equation holds whatever [ast.parse] is, and
    the state of the module is left as it was. *)
Theorem empty_expression_rejected (expression : value) (st : module_state) :
  expression = VStr "" \/ isinstance_str expression = false ->
  evaluate_expression M ast_parse expression st
  = (Raise (PyExc EvaluationError "Expression is empty."), st).
Proof.
  intros [-> | Hstr]; [reflexivity|].
  unfold evaluate_expression, evaluate_with. rewrite Hstr. simpl.
  rewrite orb_true_r. reflexivity.
Qed.

End Evaluator.

(** [empty_expression_rejected] at the integer [5], which is not a
    string. *)
Lemma empty_expression_rejected_witness :
  evaluate_expression bare_platform py_parse (VInt 5) module_init
  = (Raise (PyExc EvaluationError "Expression is empty."), module_init).
Proof.
  apply (empty_expression_rejected bare_platform py_parse (VInt 5) module_init).
  right. reflexivity.
Defined.

(** ** Failures that leave the [try] statement aside *)

(** C2.  The text ["1 +"] does not parse: [ast.parse] raises
    [SyntaxError], the call stands before the [try] statement, and the
    caller receives the [SyntaxError] itself, which is no
    [EvaluationError].  The same holds of [float(result)] after the [try]
    statement: a list display leaves as a [TypeError], an integer beyond
    the floats as an [OverflowError]. *)
Theorem syntax_error_is_not_translated (M : libm) :
  run M "1 +" = Raise (PyExc SyntaxError "invalid syntax")
  /\ exn_isinstance (PyExc SyntaxError "invalid syntax") (Some EvaluationError) = false
  /\ run M "[1]"
     = Raise (PyExc TypeError
                "float() argument must be a string or a real number, not 'list'")
  /\ run M "10 ** 400" = Raise (PyExc OverflowError "int too large to convert to float").
Proof. repeat split; vm_compute; reflexivity. Qed.

(** C1.  A string literal is a [Constant] node, and [Constant] is in
    [ALLOWED_NODES]: the validator accepts it whatever the string, and
    ["'1.5'"] evaluates to [1.5] through [float]; a string that is no
    number leaves [float] as a [ValueError]. *)
Theorem string_literal_is_accepted (M : libm) :
  (forall s, _validate_node (ast.Expression (ast.Constant (VStr s))) = Ok tt)
  /\ py_parse "'1.5'" = Ok (ast.Expression (ast.Constant (VStr "1.5")))
  /\ run M "'1.5'" = Ok 1.5%float
  /\ run M "'a'" = Raise (PyExc ValueError "could not convert string to float: 'a'").
Proof. repeat split; vm_compute; reflexivity. Qed.

(** C10.  [True] and [False] parse to [Constant] nodes, which the
    validator accepts, and [float] turns them into [1.0] and [0.0]. *)
Theorem boolean_literals_evaluate (M : libm) :
  (forall b, _validate_node (ast.Expression (ast.Constant (VBool b))) = Ok tt)
  /\ py_parse "True" = Ok (ast.Expression (ast.Constant (VBool true)))
  /\ py_parse "False" = Ok (ast.Expression (ast.Constant (VBool false)))
  /\ run M "True" = Ok 1%float
  /\ run M "False" = Ok 0%float.
Proof. repeat split; vm_compute; reflexivity. Qed.

(** ** Complex results *)

(** C5.  When [eval] returns a complex number the call fails with
    [EvaluationError("Complex results are not supported.")]: so does
    ["1j * 1j"], whose value is complex.  [math.sqrt] works on floats and
    never returns a complex number: ["sqrt(-1)"] fails with the domain
    error of the [math] module and ["sqrt(16)"] is [4.0]. *)
Theorem complex_result_rejected (M : libm) :
  (forall ast_parse source parsed st re im,
      source <> "" -> ast_parse source = Ok parsed -> _validate_node parsed = Ok tt ->
      eval M safe_globals (safe_locals (SAFE_FUNCTIONS st) (SAFE_CONSTANTS st)) parsed
      = Ok (VComplex re im) ->
      evaluate_expression M ast_parse (VStr source) st
      = (Raise (PyExc EvaluationError "Complex results are not supported."), st))
  /\ run M "1j * 1j" = Raise (PyExc EvaluationError "Complex results are not supported.")
  /\ run M "sqrt(-1)" = Raise (PyExc EvaluationError "math domain error")
  /\ run M "sqrt(16)" = Ok 4%float.
Proof.
  split; [|repeat split; vm_compute; reflexivity].
  intros ast_parse source parsed st re im Hne Hp Hv He.
  unfold evaluate_expression.
  rewrite (evaluate_with_valid M ast_parse _ _ source parsed Hne Hp Hv), He.
  reflexivity.
Qed.

(** ** State *)

Lemma evaluate_expression_state M ast_parse expression st :
  snd (evaluate_expression M ast_parse expression st) = st.
Proof. reflexivity. Qed.





(** ** Division by zero *)




Section Division.

Variable M : libm.
Variables globals locals : gmap string value.



End Division.



(** Divisions by zero of each kind, at the root and below it. *)
Example division_by_zero_examples (M : libm) :
  run M "1/0" = Raise (PyExc EvaluationError "Division by zero.")
  /\ run M "7 % 0" = Raise (PyExc EvaluationError "Division by zero.")
  /\ run M "7 // 0.0" = Raise (PyExc EvaluationError "Division by zero.")
  /\ run M "2.5 / (1 - True)" = Raise (PyExc EvaluationError "Division by zero.")
  /\ run M "abs(2 + 3 % (1.5 - 1.5))" = Raise (PyExc EvaluationError "Division by zero.")
  /\ run M "1j / 0" = Raise (PyExc EvaluationError "Division by zero.").
Proof. repeat split; vm_compute; reflexivity. Qed.

(** ** Integer arithmetic *)

Section Integers.

Variable M : libm.
Variables globals locals : gmap string value.



End Integers.

(** *** Integers below [2 ^ 53] are floats *)










(** The examples of the specification. *)
Example arithmetic_examples (M : libm) :
  run M "2 + 3 * 4" = Ok 14%float
  /\ run M "2 ** 10" = Ok 1024%float
  /\ run M "(2 + 3) * 4 - 7 // 2 % 3" = Ok 20%float
  /\ run M "7 / 2" = Ok 3.5%float.
Proof. repeat split; vm_compute; reflexivity. Qed.

(** ** Factorial *)










(** ** Cube root *)







(** On a platform whose [pow] gives [pow(1, y) = 1], [cbrt] of one is
    one. *)
Example cbrt_of_one : run bare_platform "cbrt(1.0)" = Ok 1%float.
Proof. vm_compute. reflexivity. Qed.

(** ** Rejection of unsupported elements *)



(** The classes of the constructs that the specification excludes, apart
    from string literals, are outside [ALLOWED_NODES]; the texts of the
    specification are refused accordingly. *)
Example excluded_constructs (M : libm) :
  (forall v a c, allowed (ast.Attribute v a c) = false)
  /\ (forall v i c, allowed (ast.Subscript v i c) = false)
  /\ (forall e g, allowed (ast.ListComp e g) = false)
  /\ (forall e g, allowed (ast.SetComp e g) = false)
  /\ (forall k v g, allowed (ast.DictComp k v g) = false)
  /\ (forall e g, allowed (ast.GeneratorExp e g) = false)
  /\ (forall a b, allowed (ast.Lambda a b) = false)
  /\ (forall l o c, allowed (ast.Compare l o c) = false)
  /\ (forall o v, allowed (ast.BoolOp o v) = false)
  /\ (forall t b o, allowed (ast.IfExp t b o) = false)
  /\ (forall t v, allowed (ast.NamedExpr t v) = false)
  /\ run M "a.b" = Raise (PyExc EvaluationError "Unsupported expression element: Attribute")
  /\ run M "a[0]" = Raise (PyExc EvaluationError "Unsupported expression element: Subscript")
  /\ run M "lambda x: x" = Raise (PyExc EvaluationError "Unsupported expression element: Lambda")
  /\ run M "1 < 2" = Raise (PyExc EvaluationError "Unsupported expression element: Compare")
  /\ run M "1 and 2" = Raise (PyExc EvaluationError "Unsupported expression element: BoolOp")
  /\ run M "1 if 2 else 3" = Raise (PyExc EvaluationError "Unsupported expression element: IfExp")
  /\ run M "import os" = Raise (PyExc SyntaxError "invalid syntax")
  /\ run M "__import__('os')" = Raise (PyExc EvaluationError "Invalid expression.").
Proof. repeat split; vm_compute; reflexivity. Qed.

(** ** Translation of the failures of [eval] *)



(** ** Acceptance by the validator *)


(** ** Exceptions that leave [evaluate_expression] *)







(** ** Functions that an expression can call *)

Ltac returns_step :=
  match goal with
  | H : Ok _ = Ok _ |- _ => injection H as H; try discriminate H; try subst
  | H : Raise _ = Ok _ |- _ => discriminate H
  | H : raise _ _ = Ok _ |- _ => discriminate H
  | H : unmodelled _ = Ok _ |- _ => discriminate H
  | H : unsupported_operands _ _ _ = Ok _ |- _ => discriminate H
  | H : (?m ≫= _) = Ok _ |- _ => destruct m eqn:?; simpl in H
  | H : (if ?c then _ else _) = Ok _ |- _ => destruct c eqn:?
  | H : (let '(_, _) := ?p in _) = Ok _ |- _ => destruct p
  | H : match ?x with _ => _ end = Ok _ |- _ => destruct x eqn:?
  end.

Ltac returns_data := repeat returns_step; try reflexivity.

Section Sandbox.

Variable M : libm.

Lemma float_div_data a b v : float_div a b = Ok v -> is_function v = false.
Proof. unfold float_div. intros H. returns_data. Qed.

Lemma float_pow_data a b v : float_pow M a b = Ok v -> is_function v = false.
Proof. unfold float_pow. intros H. returns_data. Qed.

Lemma math_1_data f o a v : math_1 f o a = Ok v -> is_function v = false.
Proof. unfold math_1. intros H. returns_data. Qed.

Lemma loghelper_data f a v : loghelper f a = Ok v -> is_function v = false.
Proof. unfold loghelper. intros H. returns_data. now apply math_1_data in H. Qed.

Lemma math_pow_data a b v : math_pow M a b = Ok v -> is_function v = false.
Proof. unfold math_pow, math_pow_impl. intros H. returns_data. Qed.

Lemma binary_op_data op a b v : binary_op M op a b = Ok v -> is_function v = false.
Proof.
  unfold binary_op, number_op, long_op, float_op, complex_op, long_true_divide, long_pow,
    float_rem, float_floor_div, complex_quot, sequence_repeat.
  intros H.
  destruct (as_number a), (as_number b); 
  repeat match goal with
  | H : float_div _ _ = Ok _ |- _ => now apply float_div_data in H
  | H : float_pow _ _ _ = Ok _ |- _ => now apply float_pow_data in H
  | _ => returns_step
  end; try reflexivity.
Qed.

Lemma unary_op_data op a v : unary_op op a = Ok v -> is_function v = false.
Proof. unfold unary_op. intros H. returns_data. Qed.

Lemma call_function_data c args kwargs v :
  call_function M c args kwargs = Ok v -> is_function v = false.
Proof.
  unfold call_function, math_log_impl, math_floor_impl, math_degrees_impl,
    math_radians_impl, builtins_abs_impl, builtins_round_impl, _factorial, math_factorial.
  intros H. destruct c;
  repeat match goal with
  | H : float_div _ _ = Ok _ |- _ => now apply float_div_data in H
  | H : math_1 _ _ _ = Ok _ |- _ => now apply math_1_data in H
  | H : loghelper _ _ = Ok _ |- _ => now apply loghelper_data in H
  | H : math_pow _ _ _ = Ok _ |- _ => now apply math_pow_data in H
  | _ => returns_step
  end; try reflexivity.
Qed.

(** A function that a tree with literal constants evaluates to is a value
    of the local namespace. *)
Lemma eval_function functions constants node c :
  literal_constants node ->
  eval M safe_globals (safe_locals functions constants) node = Ok (VFunc c) ->
  exists id, safe_locals functions constants !! id = Some (VFunc c).
Proof.
  induction node; intros L H; simpl in H; try discriminate H.
  - apply IHnode; [|exact H]. intros f W. apply (L f).
    apply within_child with node; [now left|exact W].
  - returns_data. now apply binary_op_data in H.
  - returns_data. now apply unary_op_data in H.
  - unfold call in H. returns_data. now apply call_function_data in H.
  - injection H as ->. elim (L c). apply within_self.
  - destruct node; try discriminate H. unfold load_name in H.
    destruct (safe_locals functions constants !! id) eqn:E.
    + injection H as ->. now exists id.
    + unfold safe_globals in H. destruct (decide (id = "__builtins__")) as [->|N].
      * rewrite lookup_singleton in H. case_decide; [discriminate H|congruence].
      * rewrite lookup_singleton_ne in H by congruence. discriminate H.
  - destruct node; try discriminate H. returns_data.
  - destruct node; try discriminate H. returns_data.
Qed.

Lemma within_trans n m root : within n m -> within m root -> within n root.
Proof.
  intros Wn Wm. induction Wm as [|m child root Hin Wm IH]; [exact Wn|].
  apply within_child with child; [exact Hin|now apply IH].
Qed.

Lemma reaches_within ev root n : reaches ev root n -> within n root.
Proof.
  induction 1; subst;
    try (eapply within_child; [|eassumption]; simpl;
         rewrite ?elem_of_cons, ?elem_of_app; auto; fail).
  - apply within_self.
  - eapply within_child; [|eassumption]. simpl.
    rewrite ?elem_of_cons, ?elem_of_app, ?elem_of_cons. auto.
  - eapply within_child with (ast.keyword name v).
    + simpl. rewrite ?elem_of_cons, ?elem_of_app, ?elem_of_cons. auto.
    + eapply within_child; [|eassumption]. simpl. now left.
  - eapply within_child; [|eassumption]. simpl.
    rewrite ?elem_of_cons, ?elem_of_app, ?elem_of_cons. auto.
  - eapply within_child; [|eassumption]. simpl.
    rewrite ?elem_of_cons, ?elem_of_app, ?elem_of_cons. auto.
Qed.

(** X5.  Whatever call the evaluation of a tree reaches, the function
    called is a value that [SAFE_CONSTANTS] or [SAFE_FUNCTIONS] binds to
    some name when the call is made: an operator, a call or a display
    never yields a function, and the only names are those of the two
    dictionaries and [__builtins__], which is an empty dictionary. *)
Theorem only_registry_functions_are_called (functions constants : gmap string value)
    (root func : ast.AST) (args keywords : list ast.AST) (c : callable) :
  literal_constants root ->
  reaches (eval M safe_globals (safe_locals functions constants)) root
    (ast.Call func args keywords) ->
  eval M safe_globals (safe_locals functions constants) func = Ok (VFunc c) ->
  exists id, constants !! id = Some (VFunc c)
             \/ (constants !! id = None /\ functions !! id = Some (VFunc c)).
Proof.
  intros L R H.
  assert (Lf : literal_constants func).
  { intros f W. apply (L f). apply within_trans with func; [exact W|].
    apply within_trans with (ast.Call func args keywords); [|now apply reaches_within in R].
    apply within_child with func; [now left|apply within_self]. }
  destruct (eval_function functions constants func c Lf H) as (id & E).
  exists id. unfold safe_locals in E. apply lookup_union_Some_raw in E. exact E.
Qed.

End Sandbox.

Lemma within_inv n root :
  within n root -> n = root \/ exists child, child ∈ ast.iter_child_nodes root /\ within n child.
Proof. intros W. inversion W; subst; [now left|right; eauto]. Qed.

(** [only_registry_functions_are_called] at the call of [fact] in
    ["2 * fact(5)"], which the evaluation reaches once the left operand
    has been evaluated. *)
Lemma only_registry_functions_are_called_witness :
  exists id,
    SAFE_CONSTANTS module_init !! id = Some (VFunc fn_factorial)
    \/ (SAFE_CONSTANTS module_init !! id = None
        /\ SAFE_FUNCTIONS module_init !! id = Some (VFunc fn_factorial)).
Proof.
  apply (only_registry_functions_are_called bare_platform
           (SAFE_FUNCTIONS module_init) (SAFE_CONSTANTS module_init)
           (ast.Expression
              (ast.BinOp (ast.Constant (VInt 2)) ast.Mult
                 (ast.Call (ast.Name "fact" ast.Load) [ast.Constant (VInt 5)] [])))
           (ast.Name "fact" ast.Load) [ast.Constant (VInt 5)] [] fn_factorial).
  - intros c W.
    repeat match goal with
    | H : within _ _ |- _ =>
        apply within_inv in H as [H|(child & Hin & H)]; [discriminate H|];
        simpl in Hin; repeat (apply elem_of_cons in Hin as [->|Hin]);
        try (apply elem_of_nil in Hin; contradiction)
    end.
  - apply reaches_body. apply reaches_right with (VInt 2); [reflexivity|]. apply reaches_here.
  - vm_compute. reflexivity.
Defined.

(** ** Names *)



(** The names of the specification: a constant, a function without a call,
    the builtins and a name that nothing binds. *)
Example name_examples (M : libm) :
  run M "tau" = Ok math_tau
  /\ run M "sin" = Raise (PyExc TypeError "float() argument must be a string or a real number, not 'builtin_function_or_method'")
  /\ run M "__builtins__" = Raise (PyExc TypeError "float() argument must be a string or a real number, not 'dict'")
  /\ run M "open" = Raise (PyExc EvaluationError "Invalid expression.").
Proof. repeat split; vm_compute; reflexivity. Qed.

(** ** The functions in degrees *)

(** The call of a function of the registry on one positional argument:
    the argument is evaluated, then the function applied. *)
Lemma eval_call_of (M : libm) (f : string) (c : callable) (a : ast.AST) :
  safe_locals (SAFE_FUNCTIONS module_init) (SAFE_CONSTANTS module_init) !! f
  = Some (VFunc c) ->
  eval_init M (call_of f a) = (v ← eval_init M a; call_function M c [v] []).
Proof.
  intros Hf. unfold eval_init, call_of. cbn [eval]. unfold load_name. rewrite Hf.
  cbn [mbind result_bind eval_each eval_keywords].
  destruct (eval _ _ _ a) as [v|e]; reflexivity.
Qed.

(** X7.  In the freshly imported module the six functions in degrees
    are compositions of other entries of the registry: for every argument
    expression [a], [sin_deg(a)] has the outcome of [sin(rad(a))], value or
    failure, and likewise [cos_deg] and [tan_deg]; [asin_deg(a)] has the
    outcome of [deg(asin(a))], and likewise [acos_deg] and [atan_deg]. *)
Theorem degree_functions_compose (M : libm) (a : ast.AST) :
  eval_init M (call_of "sin_deg" a) = eval_init M (call_of "sin" (call_of "rad" a))
  /\ eval_init M (call_of "cos_deg" a) = eval_init M (call_of "cos" (call_of "rad" a))
  /\ eval_init M (call_of "tan_deg" a) = eval_init M (call_of "tan" (call_of "rad" a))
  /\ eval_init M (call_of "asin_deg" a) = eval_init M (call_of "deg" (call_of "asin" a))
  /\ eval_init M (call_of "acos_deg" a) = eval_init M (call_of "deg" (call_of "acos" a))
  /\ eval_init M (call_of "atan_deg" a) = eval_init M (call_of "deg" (call_of "atan" a)).
Proof.
  repeat split;
    repeat match goal with
    | |- context [eval_init M (call_of ?f ?b)] =>
        let o := eval vm_compute in
          (safe_locals (SAFE_FUNCTIONS module_init) (SAFE_CONSTANTS module_init) !! f) in
        match o with
        | Some (VFunc ?c) => rewrite (eval_call_of M f c b eq_refl)
        end
    end;
    destruct (eval_init M a) as [v|e]; try reflexivity.
Qed.

(** ** The handler of POST requests *)

Section HandlerProperties.

Variable M : libm.
Variable ast_parse : string -> result ast.AST.
Variable P : codecs.

Lemma exn_isinstance_unmodelled exc :
  exn_isinstance exc None = false -> exn_cls exc = Unmodelled.
Proof. destruct exc as [[] msg]; simpl; congruence. Qed.

(** What [do_POST] answers to a failure of its [try] statement. *)
Lemma do_POST_thrown req st f :
  post_expression P req = Thrown f ->
  do_POST M ast_parse P req st =
  (match f with
   | JSONDecodeError => Ok (response 400 (error_body "Invalid JSON payload."))
   | Python exc =>
       if exn_isinstance exc (Some EvaluationError)
       then Ok (response 400 (error_body (exn_msg exc)))
       else if exn_isinstance exc None
       then Ok (response 500 (error_body "Internal server error."))
       else Raise exc
   | _ => Ok (response 500 (error_body "Internal server error."))
   end, st).
Proof.
  intros H. unfold do_POST. rewrite H.
  destruct f as [ | | |exc]; try reflexivity.
  destruct (exn_isinstance exc (Some EvaluationError)); [reflexivity|].
  destruct (exn_isinstance exc None); reflexivity.
Qed.

(** What [do_POST] answers once [evaluate_expression] has been called. *)
Lemma do_POST_evaluated req st expression :
  post_expression P req = Returned expression ->
  do_POST M ast_parse P req st =
  (match fst (evaluate_expression M ast_parse (py_object expression) st) with
   | Ok x =>
       match floatstr P x with
       | Ok text => Ok (response 200 (result_body text))
       | Raise exc =>
           if exn_isinstance exc (Some EvaluationError)
           then Ok (response 400 (error_body (exn_msg exc)))
           else if exn_isinstance exc None
           then Ok (response 500 (error_body "Internal server error."))
           else Raise exc
       end
   | Raise exc =>
       if exn_isinstance exc (Some EvaluationError)
       then Ok (response 400 (error_body (exn_msg exc)))
       else if exn_isinstance exc None
       then Ok (response 500 (error_body "Internal server error."))
       else Raise exc
   end, st).
Proof.
  intros H. unfold do_POST. rewrite H. unfold evaluate_expression. cbn [fst].
  destruct (evaluate_with M ast_parse _ _ _) as [x|exc]; cbn [mbind result_bind python].
  - unfold _make_response. cbn [json_dumps dumps_each snd fst mbind result_bind].
    destruct (floatstr P x) as [text|exc]; [reflexivity|].
    destruct exc as [[] msg]; reflexivity.
  - destruct exc as [[] msg]; reflexivity.
Qed.

(** X8.  [do_POST] reports a failure of [evaluate_expression] by its
    class: an [EvaluationError] is answered with status 400 and its own
    message, any other exception with status 500 and the fixed message
    ["Internal server error."], which discloses nothing of the exception.  In
    particular a [SyntaxError] of [ast.parse], which [evaluate_expression]
    lets through, is answered 500 and not 400. *)
Theorem post_reports_evaluation_failure (req : request) (source : string)
    (exc : exn) (st : module_state) :
  post_expression P req = Returned (JStr source) ->
  fst (evaluate_expression M ast_parse (VStr source) st) = Raise exc ->
  exn_cls exc <> Unmodelled ->
  do_POST M ast_parse P req st
  = (Ok (match exn_cls exc with
         | EvaluationError => response 400 (error_body (exn_msg exc))
         | _ => response 500 (error_body "Internal server error.")
         end), st).
Proof.
  intros He Hr Hc. rewrite (do_POST_evaluated req st _ He). cbn [py_object].
  rewrite Hr. destruct exc as [[] msg]; try reflexivity. now elim Hc.
Qed.

(** X9.  A finite result [x] is answered with status 200 and the object
    [{"result": x}], [x] written as [float.__repr__] writes it. *)
Theorem post_returns_result (req : request) (source : string) (x : float)
    (text : string) (st : module_state) :
  post_expression P req = Returned (JStr source) ->
  fst (evaluate_expression M ast_parse (VStr source) st) = Ok x ->
  PrimFloat.is_finite x = true -> float_repr P x = Ok text ->
  do_POST M ast_parse P req st = (Ok (response 200 (result_body text)), st).
Proof.
  intros He Hr Hf Ht. rewrite (do_POST_evaluated req st _ He). cbn [py_object].
  rewrite Hr. unfold floatstr.
  unfold PrimFloat.is_finite in Hf. apply negb_true_iff, orb_false_iff in Hf as [Hn Hi].
  rewrite Hn.
  assert (PrimFloat.eqb x PrimFloat.infinity = false
          /\ PrimFloat.eqb x PrimFloat.neg_infinity = false) as [-> ->].
  { unfold PrimFloat.is_infinity in Hi.
    rewrite !FloatAxioms.eqb_spec in *. rewrite abs_spec in Hi.
    change (Prim2SF PrimFloat.infinity) with (S754_infinity false) in *.
    change (Prim2SF PrimFloat.neg_infinity) with (S754_infinity true).
    destruct (Prim2SF x) as [s|s| |s m e]; try (split; reflexivity);
      destruct s; try discriminate Hi; split; reflexivity. }
  now rewrite Ht.
Qed.

(** X10.  A result that is no finite number is answered with status 200
    all the same, and written as the bare word [NaN], [Infinity] or
    [-Infinity], which is no JSON: [json.dumps] is called with [allow_nan]
    at its default. *)
Theorem post_writes_non_finite_result (req : request) (source : string) (x : float)
    (st : module_state) :
  post_expression P req = Returned (JStr source) ->
  fst (evaluate_expression M ast_parse (VStr source) st) = Ok x ->
  PrimFloat.is_finite x = false ->
  do_POST M ast_parse P req st
  = (Ok (response 200
           (result_body (if PrimFloat.is_nan x then "NaN"
                         else if PrimFloat.ltb 0 x then "Infinity"
                         else "-Infinity"))), st).
Proof.
  intros He Hr Hf. rewrite (do_POST_evaluated req st _ He). cbn [py_object].
  rewrite Hr. unfold floatstr.
  destruct (PrimFloat.is_nan x) eqn:Hn; [reflexivity|].
  unfold PrimFloat.is_finite in Hf. rewrite Hn in Hf. simpl in Hf.
  apply negb_false_iff in Hf. unfold PrimFloat.is_infinity in Hf.
  rewrite !FloatAxioms.eqb_spec in *. rewrite ltb_spec. rewrite abs_spec in Hf.
  change (Prim2SF PrimFloat.infinity) with (S754_infinity false) in *.
  change (Prim2SF PrimFloat.neg_infinity) with (S754_infinity true).
  change (Prim2SF 0) with (S754_zero false).
  destruct (Prim2SF x) as [s|s| |s m e]; try discriminate Hf;
    destruct s; try discriminate Hf; reflexivity.
Qed.

(** An expression that is the empty string or no string is answered 400. *)
Lemma do_POST_empty req st expression :
  post_expression P req = Returned expression ->
  expression = JStr "" \/ isinstance_str (py_object expression) = false ->
  do_POST M ast_parse P req st
  = (Ok (response 400 (error_body "Expression is empty.")), st).
Proof.
  intros He Hv. rewrite (do_POST_evaluated req st _ He).
  destruct Hv as [-> | Hv]; [reflexivity|].
  unfold evaluate_expression, evaluate_with. rewrite Hv. simpl.
  rewrite orb_true_r. reflexivity.
Qed.

(** X11.  When the decoded object has no item ["expression"], or the item
    is the empty string or no string at all, the answer is status 400 with
    ["Expression is empty."]. *)
Theorem post_without_expression (req : request) (items : list (string * json))
    (st : module_state) :
  post_data P req = Returned (JDict items) ->
  (forall source, dict_get items "expression" = Some (JStr source) -> source = "") ->
  do_POST M ast_parse P req st
  = (Ok (response 400 (error_body "Expression is empty.")), st).
Proof.
  intros Hd Hs.
  apply do_POST_empty with (default (JStr "") (dict_get items "expression")).
  - unfold post_expression. now rewrite Hd.
  - destruct (dict_get items "expression") as [[]|] eqn:E; simpl; auto.
    left. now rewrite (Hs s eq_refl).
Qed.

(** X12.  Without a [Content-Length] field, or with one that reads as 0,
    the body is not read at all: the request is taken for the empty
    object, and answered 400 with ["Expression is empty."]. *)
Theorem post_without_length (req : request) (st : module_state) :
  utf8_decode P "{}" = Some "{}" -> json_loads P "{}" = Some (JDict []) ->
  post_content_length req = Ok 0 ->
  do_POST M ast_parse P req st
  = (Ok (response 400 (error_body "Expression is empty.")), st).
Proof.
  intros Hu Hj Hl. apply do_POST_empty with (JStr ""); [|now left].
  unfold post_expression, post_data, post_raw_body. rewrite Hl. simpl.
  rewrite Hu. simpl. now rewrite Hj.
Qed.

(** X13.  A body that is text but no JSON is answered with status 400 and
    ["Invalid JSON payload."]. *)
Theorem post_invalid_json (req : request) (raw text : string) (st : module_state) :
  post_raw_body req = Ok raw -> utf8_decode P raw = Some text ->
  json_loads P text = None ->
  do_POST M ast_parse P req st
  = (Ok (response 400 (error_body "Invalid JSON payload.")), st).
Proof.
  intros Hr Hu Hj.
  rewrite (do_POST_thrown req st JSONDecodeError); [reflexivity|].
  unfold post_expression, post_data. rewrite Hr. simpl. rewrite Hu. simpl. now rewrite Hj.
Qed.

Lemma int_of_string_raise s exc : int_of_string s = Raise exc -> exn_cls exc = ValueError.
Proof.
  unfold int_of_string. destruct (split_sign _) as [neg ds].
  destruct (digitpart 0 0 ds) as [[n cnt] [|c rest]].
  - destruct (0 <? cnt); [discriminate|]. now intros [= <-].
  - now intros [= <-].
Qed.

(** X14.  The other failures of the request are answered with status 500
    and ["Internal server error."]: a [Content-Length] that is no integer,
    a body that is no UTF-8, and a body whose JSON is no object, such as a
    list or a number. *)
Theorem post_internal_error (req : request) (st : module_state) :
  (exists v exc, headers_get (headers req) "Content-Length" = Some v
                 /\ int_of_string v = Raise exc)
  \/ (exists raw, post_raw_body req = Ok raw /\ utf8_decode P raw = None)
  \/ (exists data, post_data P req = Returned data /\ is_dict data = false) ->
  do_POST M ast_parse P req st
  = (Ok (response 500 (error_body "Internal server error.")), st).
Proof.
  intros [(v & exc & Hh & Hi) | [(raw & Hr & Hu) | (data & Hd & Hn)]].
  - rewrite (do_POST_thrown req st (Python exc)).
    + apply int_of_string_raise in Hi. destruct exc as [[] msg]; try discriminate Hi.
      reflexivity.
    + unfold post_expression, post_data, post_raw_body, post_content_length.
      rewrite Hh, Hi. reflexivity.
  - rewrite (do_POST_thrown req st UnicodeDecodeError); [reflexivity|].
    unfold post_expression, post_data. rewrite Hr. simpl. now rewrite Hu.
  - rewrite (do_POST_thrown req st AttributeError); [reflexivity|].
    unfold post_expression. rewrite Hd. simpl. destruct data; try reflexivity.
    discriminate Hn.
Qed.

(** X15.  Whatever the request, [do_POST] leaves the state of the module as
    it was and writes one response: a status among 200, 400 and 500, the
    three CORS fields, the content type, a [Content-Length] that is the
    length of the body, and the body.  It fails only where this
    development gives no semantics. *)
Theorem post_response_is_framed (req : request) (st : module_state) :
  snd (do_POST M ast_parse P req st) = st
  /\ match fst (do_POST M ast_parse P req st) with
     | Ok events =>
         exists status body,
           (status = 200 \/ status = 400 \/ status = 500)
           /\ events =
              [ send_response status;
                send_header "Access-Control-Allow-Origin" "*";
                send_header "Access-Control-Allow-Methods" "GET, POST, OPTIONS";
                send_header "Access-Control-Allow-Headers" "Content-Type";
                send_header "Content-Type" "application/json";
                send_header "Content-Length" (pretty (String.length body));
                end_headers;
                wfile_write body ]
     | Raise exc => exn_cls exc = Unmodelled
     end.
Proof.
  assert (Hh : forall exc : exn,
    match (if exn_isinstance exc (Some EvaluationError)
           then Ok (response 400 (error_body (exn_msg exc)))
           else if exn_isinstance exc None
           then Ok (response 500 (error_body "Internal server error."))
           else Raise exc) with
    | Ok events =>
        exists status body,
          (status = 200 \/ status = 400 \/ status = 500)
          /\ events = response status body
    | Raise exc => exn_cls exc = Unmodelled
    end).
  { intros exc. destruct (exn_isinstance exc (Some EvaluationError)).
    - eexists _, _. split; [|reflexivity]. auto.
    - destruct (exn_isinstance exc None) eqn:E.
      + eexists _, _. split; [|reflexivity]. auto.
      + now apply exn_isinstance_unmodelled. }
  destruct (post_expression P req) as [expression|f] eqn:E.
  - rewrite (do_POST_evaluated req st _ E). split; [reflexivity|]. cbn [fst].
    destruct (fst (evaluate_expression M ast_parse (py_object expression) st)) as [x|exc].
    + destruct (floatstr P x) as [text|exc]; [|apply Hh].
      eexists _, _. split; [|reflexivity]. auto.
    + apply Hh.
  - rewrite (do_POST_thrown req st _ E). split; [reflexivity|]. cbn [fst].
    destruct f as [ | | |exc]; try apply Hh; eexists _, _; (split; [|reflexivity]); auto.
Qed.

(** *** [do_GET] *)

Lemma dumps_each_strings (l : list string) :
  dumps_each (json_dumps P) (JStr <$> l) = Ok (encode_basestring_ascii <$> l).
Proof.
  induction l as [|s l IH]; simpl; [reflexivity|].
  unfold fmap in IH. now rewrite IH.
Qed.

Lemma sorted_lists (d : gmap string value) : lists d (sorted (dict_keys d)).
Proof.
  unfold lists, sorted, dict_keys. repeat split.
  - apply StronglySorted_merge_sort; apply _.
  - rewrite merge_sort_Permutation. apply NoDup_fst_map_to_list.
  - rewrite merge_sort_Permutation. intros H.
    apply list_elem_of_fmap in H as ([k v] & -> & H).
    apply elem_of_map_to_list in H. now exists v.
  - rewrite merge_sort_Permutation. intros [v H].
    apply list_elem_of_fmap. exists (id, v). split; [reflexivity|].
    now apply elem_of_map_to_list.
Qed.

(** X16.  [do_GET] answers with status 200 and an object whose two lists
    are the keys of [SAFE_FUNCTIONS] and of [SAFE_CONSTANTS] as they are
    when the request comes: every key, each once, in ascending order; the
    state of the module is left as it was. *)
Theorem get_lists_the_registry (st : module_state) :
  exists functions constants,
    lists (SAFE_FUNCTIONS st) functions /\ lists (SAFE_CONSTANTS st) constants
    /\ do_GET P st = (Ok (response 200 (index_body functions constants)), st).
Proof.
  exists (sorted (dict_keys (SAFE_FUNCTIONS st))), (sorted (dict_keys (SAFE_CONSTANTS st))).
  split; [apply sorted_lists|]. split; [apply sorted_lists|].
  unfold do_GET, _make_response.
  cbn [json_dumps dumps_each fst snd mbind result_bind].
  rewrite !dumps_each_strings. reflexivity.
Qed.

End HandlerProperties.

(** [post_reports_evaluation_failure] at the text ["1 +"], which does not
    parse. *)
Lemma post_reports_evaluation_failure_witness :
  do_POST bare_platform py_parse bare_codecs (post (expression_body "1 +")) module_init
  = (Ok (response 500 (error_body "Internal server error.")), module_init).
Proof.
  apply (post_reports_evaluation_failure bare_platform py_parse bare_codecs
           (post (expression_body "1 +")) "1 +" (PyExc SyntaxError "invalid syntax")
           module_init).
  - vm_compute. reflexivity.
  - vm_compute. reflexivity.
  - discriminate.
Defined.

(** A division by zero and an unsupported element are answered 400 with
    the message of the evaluator; a list display, which [float] refuses,
    is answered 500. *)
Example post_failure_examples :
  fst (do_POST bare_platform py_parse bare_codecs (post (expression_body "1 / 0")) module_init)
  = Ok (response 400 (error_body "Division by zero."))
  /\ fst (do_POST bare_platform py_parse bare_codecs (post (expression_body "[1]")) module_init)
     = Ok (response 500 (error_body "Internal server error."))
  /\ fst (do_POST bare_platform py_parse bare_codecs (post (expression_body "a.b")) module_init)
     = Ok (response 400 (error_body "Unsupported expression element: Attribute")).
Proof. repeat split; vm_compute; reflexivity. Qed.

(** [post_returns_result] at ["2 + 3 * 4"]. *)
Lemma post_returns_result_witness :
  do_POST bare_platform py_parse bare_codecs (post (expression_body "2 + 3 * 4")) module_init
  = (Ok (response 200 (result_body "14.0")), module_init).
Proof.
  apply (post_returns_result bare_platform py_parse bare_codecs
           (post (expression_body "2 + 3 * 4")) "2 + 3 * 4" 14%float "14.0" module_init).
  - vm_compute. reflexivity.
  - vm_compute. reflexivity.
  - vm_compute. reflexivity.
  - vm_compute. reflexivity.
Defined.

(** [post_writes_non_finite_result] at the literal ["1e999"], which is
    infinite. *)
Lemma post_writes_non_finite_result_witness :
  do_POST bare_platform py_parse bare_codecs (post (expression_body "1e999")) module_init
  = (Ok (response 200 (result_body "Infinity")), module_init).
Proof.
  apply (post_writes_non_finite_result bare_platform py_parse bare_codecs
           (post (expression_body "1e999")) "1e999" PrimFloat.infinity module_init).
  - vm_compute. reflexivity.
  - vm_compute. reflexivity.
  - vm_compute. reflexivity.
Defined.

(** [post_without_expression] at an object whose expression is the number
    5. *)
Lemma post_without_expression_witness :
  do_POST bare_platform py_parse bare_codecs
    (post (json_object [("expression", "5"); ("precision", "2")])) module_init
  = (Ok (response 400 (error_body "Expression is empty.")), module_init).
Proof.
  apply (post_without_expression bare_platform py_parse bare_codecs
           (post (json_object [("expression", "5"); ("precision", "2")]))
           [("expression", JInt 5); ("precision", JInt 2)] module_init).
  - vm_compute. reflexivity.
  - intros source H. vm_compute in H. discriminate H.
Defined.

(** [post_without_length] at a request without a [Content-Length] field,
    whose stream cannot be read. *)
Lemma post_without_length_witness :
  do_POST bare_platform py_parse bare_codecs
    {| headers := [("Content-Type", "application/json")];
       rfile := fun _ => raise Unmodelled "read" |} module_init
  = (Ok (response 400 (error_body "Expression is empty.")), module_init).
Proof.
  apply (post_without_length bare_platform py_parse bare_codecs
           {| headers := [("Content-Type", "application/json")];
              rfile := fun _ => raise Unmodelled "read" |} module_init).
  - vm_compute. reflexivity.
  - vm_compute. reflexivity.
  - vm_compute. reflexivity.
Defined.

(** [post_invalid_json] at a body whose key is not quoted. *)
Lemma post_invalid_json_witness :
  do_POST bare_platform py_parse bare_codecs (post "{expression: 1}") module_init
  = (Ok (response 400 (error_body "Invalid JSON payload.")), module_init).
Proof.
  apply (post_invalid_json bare_platform py_parse bare_codecs
           (post "{expression: 1}") "{expression: 1}" "{expression: 1}" module_init).
  - vm_compute. reflexivity.
  - vm_compute. reflexivity.
  - vm_compute. reflexivity.
Defined.

(** [post_internal_error] at a body that is a JSON list. *)
Lemma post_internal_error_witness :
  do_POST bare_platform py_parse bare_codecs (post "[1, 2]") module_init
  = (Ok (response 500 (error_body "Internal server error.")), module_init).
Proof.
  apply (post_internal_error bare_platform py_parse bare_codecs (post "[1, 2]") module_init).
  right. right. exists (JList [JInt 1; JInt 2]). split.
  - vm_compute. reflexivity.
  - reflexivity.
Defined.

(** A [Content-Length] that is a word, a body of two bytes that are no
    UTF-8, and a body that is a number. *)
Example post_internal_error_examples :
  fst (do_POST bare_platform py_parse bare_codecs
         {| headers := [("content-length", "ten")]; rfile := fun _ => Ok "{}" |} module_init)
  = Ok (response 500 (error_body "Internal server error."))
  /\ fst (do_POST bare_platform py_parse bare_codecs
            {| headers := [("Content-Length", "2")];
               rfile := fun _ => Ok (String "195"%char (String "040"%char "")) |} module_init)
     = Ok (response 500 (error_body "Internal server error."))
  /\ fst (do_POST bare_platform py_parse bare_codecs (post "3") module_init)
     = Ok (response 500 (error_body "Internal server error.")).
Proof. repeat split; vm_compute; reflexivity. Qed.

(** The response to GET in the freshly imported module. *)
Example get_example :
  fst (do_GET bare_codecs module_init)
  = Ok (response 200
          (index_body
             [ "abs"; "acos"; "acos_deg"; "asin"; "asin_deg"; "atan"; "atan_deg"; "cbrt";
               "ceil"; "cos"; "cos_deg"; "cosh"; "deg"; "exp"; "fact"; "factorial";
               "floor"; "ln"; "log"; "log10"; "rad"; "round"; "sin"; "sin_deg"; "sinh";
               "sqrt"; "tan"; "tan_deg"; "tanh" ]
             [ "e"; "pi"; "tau" ])).
Proof. vm_compute. reflexivity. Qed.
